(** * pyift.shortestpath: the validation wrapper around the IFT core

    A shallow embedding of [src/pyift/shortestpath.py].  The four entry
    points of that module validate and normalise their arguments and then
    hand them to the compiled extension [_pyift].  The extension is not part
    of the Python sources; it appears here as a parameter of the embedding.

    Python objects are mutable and passed by reference, so an array is a
    handle (buffer address and shape) into a store of buffers, and every
    entry point is a computation in a state-and-exception monad over that
    store.  The state also logs the calls made to [_pyift]. *)

From Stdlib Require Import ZArith PrimFloat SpecFloat FloatOps Ascii.
From stdpp Require Import base decidable option list strings pretty gmap fin_maps.

Open Scope string_scope.
Open Scope nat_scope.
Open Scope list_scope.

(** ** Python exceptions *)

Inductive exn : Type :=
| ValueError (msg : string)
| TypeError (msg : string)
| IndexError (msg : string)
| AxisError (msg : string)
| NotImplementedError.

(** ['%r' % t] for a tuple of ints, as Python prints shapes. *)
Definition repr_tuple (t : list nat) : string :=
  match t with
  | [] => "()"
  | [n] => "(" +:+ pretty n +:+ ",)"
  | _ => "(" +:+ String.concat ", " (pretty <$> t) +:+ ")"
  end.

(** ** numpy scalars, buffers and arrays *)

Inductive dtype : Type := bool_ | int64 | float64.

Inductive scalar : Type :=
| SBool (b : bool)
| SInt (z : Z)
| SFloat (f : float).

Inductive buffer : Type :=
| BoolBuf (l : list bool)
| IntBuf (l : list Z)
| FloatBuf (l : list float).

#[export] Instance buffer_inhabited : Inhabited buffer := populate (FloatBuf []).

Definition buffer_dtype (b : buffer) : dtype :=
  match b with
  | BoolBuf _ => bool_
  | IntBuf _ => int64
  | FloatBuf _ => float64
  end.

Definition buffer_items (b : buffer) : list scalar :=
  match b with
  | BoolBuf l => SBool <$> l
  | IntBuf l => SInt <$> l
  | FloatBuf l => SFloat <$> l
  end.

(** Conversions between element types.  [float_of_Z] rounds to the nearest
    binary64 value, as the C conversion of an integer to double does. *)
Definition float_of_Z (z : Z) : float :=
  SF2Prim (binary_normalize 53 1024 z 0 false).

Definition scalar_to_bool (s : scalar) : bool :=
  match s with
  | SBool b => b
  | SInt z => negb (z =? 0)%Z
  | SFloat f => negb (f =? 0)%float
  end.

Definition scalar_to_float (s : scalar) : float :=
  match s with
  | SBool b => if b then 1%float else 0%float
  | SInt z => float_of_Z z
  | SFloat f => f
  end.

(** The buffer numpy builds from a sequence of scalars: the elements are
    promoted to their common type (bool below int below float); an empty
    sequence gives an empty float64 buffer.  Integers are taken to fit
    int64. *)
Definition as_bools (l : list scalar) : option (list bool) :=
  mapM (λ s, match s with SBool b => Some b | _ => None end) l.

Definition as_ints (l : list scalar) : option (list Z) :=
  mapM (λ s, match s with
             | SBool b => Some (if b then 1%Z else 0%Z)
             | SInt z => Some z
             | SFloat _ => None
             end) l.

Definition pack (l : list scalar) : buffer :=
  match l with
  | [] => FloatBuf []
  | _ =>
      match as_bools l with
      | Some bs => BoolBuf bs
      | None =>
          match as_ints l with
          | Some zs => IntBuf zs
          | None => FloatBuf (scalar_to_float <$> l)
          end
      end
  end.

(** [b.astype(bool)] on the elements. *)
Definition buffer_astype_bool (b : buffer) : buffer :=
  BoolBuf (scalar_to_bool <$> buffer_items b).

(** Addresses of buffers. *)
Abbreviation loc := positive.

(** An array object: the address of its buffer and its shape.  A view
    ([np.expand_dims]) shares the buffer of its base array. *)
Record ndarray : Type := NdArray { buf : loc; shape : list nat }.

Definition ndim (a : ndarray) : nat := length (shape a).

Definition shape_size (s : list nat) : nat := foldr Nat.mul 1 s.

(** [scipy.sparse.csr_matrix]: always two-dimensional. *)
Record csr_matrix : Type := CsrMatrix {
  csr_shape : nat * nat;
  data : ndarray;
  indices : ndarray;
  indptr : ndarray
}.

(** The Python values an [image], [graph] or [mask] argument may hold. *)
Inductive pyobj : Type :=
| PyNone
| PyNdarray (a : ndarray)
| PyCsrMatrix (g : csr_matrix)
| PyObject (type_name : string).

(** What [np.asarray] is given for [scales]: an array, a flat Python
    sequence of numbers, or a single number. *)
Inductive array_like : Type :=
| AlNdarray (a : ndarray)
| AlSeq (l : list scalar)
| AlScalar (s : scalar).

Definition is_None (o : pyobj) : bool :=
  match o with PyNone => true | _ => false end.

(** [isinstance(o, np.ndarray)] and [isinstance(o, sparse.csr_matrix)],
    with the downcast. *)
Definition as_ndarray (o : pyobj) : option ndarray :=
  match o with PyNdarray a => Some a | _ => None end.

Definition as_csr_matrix (o : pyobj) : option csr_matrix :=
  match o with PyCsrMatrix g => Some g | _ => None end.

(** [t[:-1]] on a tuple. *)
Definition slice_to_last {A} (t : list A) : list A := take (length t - 1) t.

(** A keyword argument with a default: [None] is an omitted argument. *)
Definition kwarg {A} (dflt : A) (given : option A) : A := default dflt given.

(** ** The interface of the compiled core *)

Inductive core_call : Type :=
| seed_competition_grid (image seeds : ndarray)
| seed_competition_graph (data indices indptr seeds : ndarray)
| dynamic_arc_weight_grid_exp_decay (image seeds : ndarray) (alpha : float)
| dynamic_arc_weight_grid_label (image seeds : ndarray)
| dynamic_arc_weight_grid_root (image seeds : ndarray)
| euclidean_distance_transform_grid (mask scales : ndarray)
| watershed_from_minima_grid (image mask : ndarray) (penalization : float).

(** Costs, roots, predecessors and labels. *)
Definition maps4 : Type := ndarray * ndarray * ndarray * ndarray.

(** Per-root statistics of the dynamic arc-weight modes
    ([Dict[Tuple, np.ndarray]]). *)
Definition tree_stats : Type := gmap (list nat) ndarray.

Definition core_ret (c : core_call) : Type :=
  match c with
  | seed_competition_grid _ _ => maps4
  | seed_competition_graph _ _ _ _ => maps4
  | dynamic_arc_weight_grid_exp_decay _ _ _ => maps4 * tree_stats
  | dynamic_arc_weight_grid_label _ _ => maps4 * tree_stats
  | dynamic_arc_weight_grid_root _ _ => maps4 * tree_stats
  | euclidean_distance_transform_grid _ _ => ndarray * ndarray
  | watershed_from_minima_grid _ _ _ => ndarray * ndarray
  end%type.

(** The store: the buffers allocated so far. *)
Abbreviation store := (gmap loc buffer).

Definition core : Type := ∀ c : core_call, store → (exn + core_ret c) * store.

(** ** The state-and-exception monad *)

Record state : Type := State { heap : store; calls : list core_call }.

Definition M (A : Type) : Type := state → (exn + A) * state.

#[export] Instance M_ret : MRet M := λ A x st, (inr x, st).

#[export] Instance M_bind : MBind M := λ A B f m st,
  match m st with
  | (inl e, st') => (inl e, st')
  | (inr x, st') => f x st'
  end.

Definition raise {A} (e : exn) : M A := λ st, (inl e, st).

(** [if c: raise e] *)
Definition raise_if (c : bool) (e : exn) : M () :=
  if c then raise e else mret ().

Definition alloc (b : buffer) : M loc := λ st,
  let l := fresh (dom (heap st)) in
  (inr l, State (<[l:=b]> (heap st)) (calls st)).

Definition load (l : loc) : M buffer := λ st, (inr (heap st !!! l), st).

(** ** numpy operations used by the wrapper *)

(** [np.expand_dims(a, axis)]: a view with a unit axis inserted. *)
Definition np_expand_dims (a : ndarray) (axis : nat) : M ndarray :=
  if decide (axis ≤ ndim a)
  then mret (NdArray (buf a) (take axis (shape a) ++ 1 :: drop axis (shape a)))
  else raise (AxisError "axis is out of bounds").

(** [np.ones(n)] *)
Definition np_ones (n : nat) : M ndarray :=
  l ← alloc (FloatBuf (replicate n 1%float));
  mret (NdArray l [n]).

(** [np.ones_like(a, dtype=bool)] *)
Definition np_ones_like_bool (a : ndarray) : M ndarray :=
  l ← alloc (BoolBuf (replicate (shape_size (shape a)) true));
  mret (NdArray l (shape a)).

(** [np.array(t)] for a tuple of scalars. *)
Definition np_array (t : list scalar) : M ndarray :=
  l ← alloc (pack t);
  mret (NdArray l [length t]).

(** [np.asarray(x)] *)
Definition np_asarray (x : array_like) : M ndarray :=
  match x with
  | AlNdarray a => mret a
  | AlSeq t => np_array t
  | AlScalar s =>
      l ← alloc (pack [s]);
      mret (NdArray l [])
  end.

(** [a.astype(bool)]: always a fresh copy. *)
Definition astype_bool (a : ndarray) : M ndarray :=
  b ← load (buf a);
  l ← alloc (buffer_astype_bool b);
  mret (NdArray l (shape a)).

(** [a[i]] on a one-dimensional array. *)
Definition getitem (a : ndarray) (i : nat) : M scalar :=
  b ← load (buf a);
  match buffer_items b !! i with
  | Some s => mret s
  | None => raise (IndexError "index out of bounds")
  end.

Section wrapper.

(** The extension module. *)
Variable _pyift : core.

Definition invoke (c : core_call) : M (core_ret c) := λ st,
  let '(r, h) := _pyift c (heap st) in
  (r, State h (calls st ++ [c])).

(** ** seed_competition *)

Definition seed_competition (seeds : ndarray) (image graph : pyobj)
    (image_3d : option bool) : M maps4 :=
  let image_3d := kwarg false image_3d in
  raise_if (is_None image && is_None graph)
    (ValueError "`image` or `graph` must be provided.");;
  raise_if (negb (is_None image) && negb (is_None graph))
    (ValueError "`image` and `graph` present, only one must be provided.");;
  if negb (is_None image) then
    match as_ndarray image with
    | None => raise (TypeError "`image` must be a `ndarray`.")
    | Some image =>
        raise_if (bool_decide (ndim image < 2 ∨ 4 < ndim image))
          (ValueError ("`image` must be a 2, 3 or 4-dimensional array, "
                       +:+ pretty (ndim image) +:+ " found."));;
        image ←
          (if decide (ndim image = 2) then
             if image_3d then
               raise (ValueError
                 "2-dimensional array cannot be converted to an 3D grid.")
             else np_expand_dims image 2
           else if bool_decide (ndim image = 3) && image_3d then
             np_expand_dims image 3
           else mret image);
        raise_if (bool_decide (slice_to_last (shape image) ≠ shape seeds))
          (ValueError ("`image` grid and `seeds` must have the same dimensions, "
                       +:+ repr_tuple (slice_to_last (shape image)) +:+ " and "
                       +:+ repr_tuple (shape seeds) +:+ " found."));;
        invoke (seed_competition_grid image seeds)
    end
  else
    (* graph is provided *)
    match as_csr_matrix graph with
    | None => raise (TypeError "`graph` must be a `csr_matrix`.")
    | Some graph =>
        (* the format string has one [%r] and is given the 2-tuple
           [graph.shape]: Python raises TypeError while building the message *)
        raise_if (bool_decide ((csr_shape graph).1 ≠ (csr_shape graph).2))
          (TypeError "not all arguments converted during string formatting");;
        raise_if (bool_decide (ndim seeds ≠ 1))
          (ValueError ("`seeds` must be a 1-dimensional array, "
                       +:+ pretty (ndim seeds) +:+ " found."));;
        raise_if (bool_decide (shape seeds !! 0 ≠ Some (csr_shape graph).1))
          (ValueError ("`graph` and `seeds` dimensions does not match, "
                       +:+ pretty (csr_shape graph).1 +:+ " and "
                       +:+ pretty (default 0 (shape seeds !! 0)) +:+ " found."));;
        invoke (seed_competition_graph (data graph) (indices graph)
                                       (indptr graph) seeds)
    end.

(** ** dynamic_arc_weight *)

Definition allowed_modes : list string := ["exp"; "label"; "root"].

Definition dynamic_arc_weight (seeds : ndarray) (image : pyobj)
    (image_3d : option bool) (mode : option string) (alpha : option float)
    : M (maps4 * tree_stats) :=
  let image_3d := kwarg false image_3d in
  let mode := kwarg "root" mode in
  let alpha := kwarg 0.5%float alpha in
  raise_if (bool_decide (mode ∉ allowed_modes))
    (ValueError "`mode` must belong to ('exp', 'label', 'root')");;
  match as_ndarray image with
  | None => raise (TypeError "`image` must be a `ndarray`.")
  | Some image =>
      raise_if (bool_decide (ndim image < 2 ∨ 4 < ndim image))
        (ValueError ("`image` must be a 2, 3 or 4-dimensional array, "
                     +:+ pretty (ndim image) +:+ " found."));;
      raise_if ((alpha <? 0)%float || (1 <? alpha)%float)
        (ValueError "`alpha` must be between 0 and 1");;
      image ←
        (if decide (ndim image = 2) then
           if image_3d then
             raise (ValueError
               "2-dimensional array cannot be converted to an 3D grid.")
           else np_expand_dims image 2
         else if bool_decide (ndim image = 3) && image_3d then
           np_expand_dims image 3
         else mret image);
      raise_if (bool_decide (slice_to_last (shape image) ≠ shape seeds))
        (ValueError ("`image` grid and `seeds` must have the same dimensions, "
                     +:+ repr_tuple (slice_to_last (shape image)) +:+ " and "
                     +:+ repr_tuple (shape seeds) +:+ " found."));;
      if decide (mode = "exp") then
        invoke (dynamic_arc_weight_grid_exp_decay image seeds alpha)
      else if decide (mode = "label") then
        invoke (dynamic_arc_weight_grid_label image seeds)
      else if decide (mode = "root") then
        invoke (dynamic_arc_weight_grid_root image seeds)
      else raise NotImplementedError
  end.

(** ** distance_transform_edt *)

Definition distance_transform_edt (mask : pyobj) (scales : option array_like)
    : M ndarray :=
  match as_ndarray mask with
  | None => raise (TypeError "`mask` must be a `ndarray`.")
  | Some mask =>
      scales ←
        (match scales with
         | None => a ← np_ones 3; mret (AlNdarray a)
         | Some scales => mret scales
         end);
      scales ←
        (match scales with
         | AlNdarray a => mret a
         | _ => np_asarray scales
         end);
      raise_if (bool_decide (ndim scales ≠ 1))
        (ValueError "`scales` must be a 1-dimensional array.");;
      scales ←
        (if decide (shape scales !! 0 = Some 2) then
           s0 ← getitem scales 0;
           s1 ← getitem scales 1;
           np_array [SInt 1; s0; s1]
         else mret scales);
      raise_if (bool_decide (shape scales !! 0 ≠ Some 3))
        (ValueError ("`scales` must be a 2 or 3-dimensional array, "
                     +:+ pretty (ndim scales) +:+ " found."));;
      raise_if (bool_decide (ndim mask < 2 ∨ 3 < ndim mask))
        (ValueError ("`image` must be a 2 or 3-dimensional array, "
                     +:+ pretty (ndim mask) +:+ " found."));;
      (* distance and nearest points *)
      mask_bool ← astype_bool mask;
      '(distance, _) ← invoke (euclidean_distance_transform_grid mask_bool scales);
      mret distance
  end.

(** ** watershed_from_minima *)

Definition watershed_from_minima (image mask : pyobj)
    (penalization : option float) : M (ndarray * ndarray) :=
  let penalization := kwarg 1%float penalization in
  match as_ndarray image with
  | None => raise (TypeError "`image` must be a `ndarray`.")
  | Some image =>
      mask ←
        (if is_None mask then a ← np_ones_like_bool image; mret (PyNdarray a)
         else mret mask);
      match as_ndarray mask with
      | None => raise (TypeError "`mask` must be a `ndarray`.")
      | Some mask =>
          raise_if (bool_decide (shape image ≠ shape mask))
            (ValueError ("`image` and `mask` must have the same dimensions, "
                         +:+ repr_tuple (shape image) +:+ " and "
                         +:+ repr_tuple (shape mask) +:+ " found."));;
          raise_if (bool_decide (ndim image < 2 ∨ 3 < ndim image))
            (ValueError ("`image` must be a 2 or 3-dimensional array, "
                         +:+ pretty (ndim image) +:+ " found."));;
          mask_bool ← astype_bool mask;
          invoke (watershed_from_minima_grid image mask_bool penalization)
      end
  end.

End wrapper.

(** ** A small executable stand-in for the core

    Enough of a core to run the wrappers on concrete inputs: every map it
    returns is a fresh zero-filled array shaped like the seeds (or mask, or
    image) it was given, and no existing buffer is touched. *)

Definition fresh_zeros (sh : list nat) (h : store) : ndarray * store :=
  let l := fresh (dom h) in
  (NdArray l sh, <[l := FloatBuf (replicate (shape_size sh) 0%float)]> h).

Definition zeros4 (sh : list nat) (h : store) : maps4 * store :=
  let '(a, h) := fresh_zeros sh h in
  let '(b, h) := fresh_zeros sh h in
  let '(c, h) := fresh_zeros sh h in
  let '(d, h) := fresh_zeros sh h in
  ((a, b, c, d), h).

Definition zeros2 (sh : list nat) (h : store) : (ndarray * ndarray) * store :=
  let '(a, h) := fresh_zeros sh h in
  let '(b, h) := fresh_zeros sh h in
  ((a, b), h).

Definition zero_core : core := λ c,
  match c return store → (exn + core_ret c) * store with
  | seed_competition_grid _ seeds
  | seed_competition_graph _ _ _ seeds =>
      λ h, let '(r, h) := zeros4 (shape seeds) h in (inr r, h)
  | dynamic_arc_weight_grid_exp_decay _ seeds _
  | dynamic_arc_weight_grid_label _ seeds
  | dynamic_arc_weight_grid_root _ seeds =>
      λ h, let '(r, h) := zeros4 (shape seeds) h in (inr (r, ∅), h)
  | euclidean_distance_transform_grid mask _ =>
      λ h, let '(r, h) := zeros2 (shape mask) h in (inr r, h)
  | watershed_from_minima_grid image _ _ =>
      λ h, let '(r, h) := zeros2 (shape image) h in (inr r, h)
  end.

(** Concrete stores and arrays to run the wrappers on. *)

Definition st0 : state :=
  State (<[1%positive := IntBuf [1; 0; 0; 2]%Z]>
         (<[2%positive := FloatBuf [1; 2; 3; 4; 5; 6; 7; 8]%float]>
         (<[3%positive := FloatBuf [2; 3]%float]>
         (<[4%positive := FloatBuf [1; 0; 0; 2]%float]>
         (<[5%positive := IntBuf [7; 8; 6; 3]%Z]>
         (<[6%positive := IntBuf [0; 2; 0; 1]%Z]>
         (<[7%positive := BoolBuf [true; true; true; true]]>
         (<[8%positive := BoolBuf [false; true; false; true]]> ∅)))))))) [].

Definition seeds22 : ndarray := NdArray 1%positive [2; 2].
Definition image222 : ndarray := NdArray 2%positive [2; 2; 2].
Definition scales2 : ndarray := NdArray 3%positive [2].
Definition fseeds22 : ndarray := NdArray 4%positive [2; 2].
Definition gray22 : ndarray := NdArray 5%positive [2; 2].
Definition mask22 : ndarray := NdArray 6%positive [2; 2].
Definition ones22 : ndarray := NdArray 7%positive [2; 2].
Definition bmask22 : ndarray := NdArray 8%positive [2; 2].

(** ** Contracts of the core and properties of runs *)

(** Modelled from the spec: the compiled core [_pyift] is not among the
    Python sources.  Section 5 of the specification says of it that "the
    Graph Provider and seed/feature data are borrowed read-only inputs,
    never mutated": a core call leaves every buffer that existed before it
    as it was. *)
Definition core_read_only (c : core) : Prop :=
  ∀ call h, h ⊆ (c call h).2.

(** Modelled from the spec: the compiled core [_pyift] is not among the
    Python sources.  Section 6 says the distance transform "returns the
    Euclidean distance map, same shape as [mask]". *)
Definition core_edt_same_shape (c : core) : Prop :=
  ∀ mask scales h distance roots h',
    c (euclidean_distance_transform_grid mask scales) h
      = (inr (distance, roots), h') →
    shape distance = shape mask.

(** The image as the core receives it: a 2-D image gets a unit band axis,
    and so does a 3-D image flagged [image_3d]. *)
Definition normalized_image (image : ndarray) (image_3d : bool) : ndarray :=
  if bool_decide (ndim image = 2) || (bool_decide (ndim image = 3) && image_3d)
  then NdArray (buf image) (shape image ++ [1])
  else image.

(** The grid of the normalized image: its shape without the last,
    feature-vector axis. *)
Definition grid_shape (image : ndarray) (image_3d : bool) : list nat :=
  slice_to_last (shape (normalized_image image image_3d)).

(** The inputs [seed_competition] is specified to reject, case by case as
    the specification lists them. *)
Definition seed_competition_invalid (seeds : ndarray) (image graph : pyobj)
    (image_3d : bool) : Prop :=
  match image, graph with
  | PyNone, PyNone => True (* neither supplied *)
  | PyNone, PyCsrMatrix g =>
      (csr_shape g).1 ≠ (csr_shape g).2 ∨ shape seeds ≠ [(csr_shape g).1]
  | PyNone, _ => True (* graph is not a CSR matrix *)
  | PyNdarray a, PyNone =>
      ndim a < 2 ∨ 4 < ndim a ∨ (ndim a = 2 ∧ image_3d = true)
      ∨ grid_shape a image_3d ≠ shape seeds
  | _, PyNone => True (* image is not an ndarray *)
  | _, _ => True (* both supplied *)
  end.

(** The range check on [alpha]: true when [alpha] is below 0 or above 1. *)
Definition alpha_out_of_range (alpha : float) : bool :=
  (alpha <? 0)%float || (1 <? alpha)%float.

(** The inputs [dynamic_arc_weight] rejects once [mode] is a valid one. *)
Definition dynamic_arc_weight_invalid (seeds : ndarray) (image : pyobj)
    (image_3d : bool) (alpha : float) : Prop :=
  match image with
  | PyNdarray a =>
      ndim a < 2 ∨ 4 < ndim a ∨ alpha_out_of_range alpha = true
      ∨ (ndim a = 2 ∧ image_3d = true)
      ∨ grid_shape a image_3d ≠ shape seeds
  | _ => True (* image is not an ndarray *)
  end.

(** [holds h a v]: in store [h] the array [a] is allocated, with the shape
    and buffer contents [v].  Two arrays at different addresses are equal as
    values when they hold the same [v]. *)
Definition holds (h : store) (a : ndarray) (v : list nat * buffer) : Prop :=
  shape a = v.1 ∧ h !! buf a = Some v.2.

(** A computation that does not call the core. *)
Definition silent {A} (m : M A) : Prop :=
  ∀ st, calls (m st).2 = calls st.

(** The value of [np.array(t)] for a tuple of scalars. *)
Definition np_array_value (t : list scalar) : list nat * buffer :=
  ([length t], pack t).

(** Shape and items of [np.asarray(x)]. *)
Definition al_shape (x : array_like) : list nat :=
  match x with
  | AlNdarray a => shape a
  | AlSeq t => [length t]
  | AlScalar _ => []
  end.

Definition al_items (h : store) (x : array_like) : list scalar :=
  match x with
  | AlNdarray a => buffer_items (h !!! buf a)
  | AlSeq t => buffer_items (pack t)
  | AlScalar s => [s]
  end.

(** The part of [distance_transform_edt] that brings [scales] to a
    length-3 array (source lines 249 to 262), named for the proofs. *)
Definition edt_scales (scales : option array_like) : M ndarray :=
  scales ←
    (match scales with
     | None => a ← np_ones 3; mret (AlNdarray a)
     | Some scales => mret scales
     end);
  scales ←
    (match scales with
     | AlNdarray a => mret a
     | _ => np_asarray scales
     end);
  raise_if (bool_decide (ndim scales ≠ 1))
    (ValueError "`scales` must be a 1-dimensional array.");;
  scales ←
    (if decide (shape scales !! 0 = Some 2) then
       s0 ← getitem scales 0;
       s1 ← getitem scales 1;
       np_array [SInt 1; s0; s1]
     else mret scales);
  raise_if (bool_decide (shape scales !! 0 ≠ Some 3))
    (ValueError ("`scales` must be a 2 or 3-dimensional array, "
                 +:+ pretty (ndim scales) +:+ " found."));;
  mret scales.

(** One call to the distance-transform backend, of which only the first
    component of the result is kept. *)
Definition edt_via_core (c : core) (mask scales : ndarray) (st : state)
    : (exn + ndarray) * state :=
  let '(r, st') := invoke c (euclidean_distance_transform_grid mask scales) st in
  (match r with inl e => inl e | inr (distance, _) => inr distance end, st').

(** [watershed_from_minima] from its shape check on (source lines 323 to
    330), once [image] and [mask] are known to be arrays; named for the
    proofs. *)
Definition watershed_checked (c : core) (image mask : ndarray)
    (penalization : float) : M (ndarray * ndarray) :=
  raise_if (bool_decide (shape image ≠ shape mask))
    (ValueError ("`image` and `mask` must have the same dimensions, "
                 +:+ repr_tuple (shape image) +:+ " and "
                 +:+ repr_tuple (shape mask) +:+ " found."));;
  raise_if (bool_decide (ndim image < 2 ∨ 3 < ndim image))
    (ValueError ("`image` must be a 2 or 3-dimensional array, "
                 +:+ pretty (ndim image) +:+ " found."));;
  mask_bool ← astype_bool mask;
  invoke c (watershed_from_minima_grid image mask_bool penalization).

(** An all-true boolean array of the given shape, as a value. *)
Definition all_true (sh : list nat) : list nat * buffer :=
  (sh, BoolBuf (replicate (shape_size sh) true)).

(** A computation that leaves every buffer of the store it starts from as
    it found it (it may allocate new ones). *)
Definition preserves {A} (m : M A) : Prop :=
  ∀ st, heap st ⊆ heap (m st).2.

(** A run that raised without the core having been called. *)
Definition rejected {A} (st : state) (r : (exn + A) * state) : Prop :=
  ∃ e, r.1 = inl e ∧ calls r.2 = calls st.

(** ** Further properties of runs *)

(** The exceptions the wrapper raises on purpose. *)
Definition is_validation_error (e : exn) : Prop :=
  match e with
  | ValueError _ | TypeError _ => True
  | _ => False
  end.

(** A run that raised an exception satisfying [P] without the core having
    been called. *)
Definition rejected_with {A} (P : exn → Prop) (st : state)
    (r : (exn + A) * state) : Prop :=
  ∃ e, r.1 = inl e ∧ calls r.2 = calls st ∧ P e.

(** A run that called the core exactly once and mirrors that call: the
    store it leaves is the one the core left, it raises what the core
    raised, and it returns when the core returned. *)
Definition through_core {A} (c : core) (st : state)
    (r : (exn + A) * state) : Prop :=
  ∃ call st1,
    calls st1 = calls st
    ∧ calls r.2 = calls st ++ [call]
    ∧ heap r.2 = (c call (heap st1)).2
    ∧ match (c call (heap st1)).1 with
      | inl e => r.1 = inl e
      | inr _ => ∃ v, r.1 = inr v
      end.

(** A [scales] argument whose buffer has as many items as its shape says. *)
Definition scales_well_formed (h : store) (scales : option array_like) : Prop :=
  match scales with
  | None => True
  | Some x => length (al_items h x) = shape_size (al_shape x)
  end.

(** The [scales] that [distance_transform_edt] refuses: given, and not
    one-dimensional of length 2 or 3. *)
Definition scales_invalid (scales : option array_like) : Prop :=
  match scales with
  | None => False
  | Some x => al_shape x ≠ [2] ∧ al_shape x ≠ [3]
  end.

Definition distance_transform_edt_invalid (mask : pyobj)
    (scales : option array_like) : Prop :=
  match mask with
  | PyNdarray a => scales_invalid scales ∨ ndim a < 2 ∨ 3 < ndim a
  | _ => True (* mask is not an ndarray *)
  end.

(** The inputs [watershed_from_minima] refuses. *)
Definition watershed_from_minima_invalid (image mask : pyobj) : Prop :=
  match image, mask with
  | PyNdarray img, PyNone => ndim img < 2 ∨ 3 < ndim img
  | PyNdarray img, PyNdarray a =>
      shape img ≠ shape a ∨ ndim img < 2 ∨ 3 < ndim img
  | _, _ => True (* image or mask is not an ndarray *)
  end.

(** Inputs on which [image_3d] is not consulted: no image, or an image
    that is neither 2-D nor 3-D. *)
Definition image_3d_unused (image : pyobj) : Prop :=
  match image with
  | PyNdarray a => ndim a ≠ 2 ∧ ndim a ≠ 3
  | _ => True
  end.

(** A two-node graph in CSR form with its seeds, for concrete runs. *)
Definition st_graph : state :=
  State (<[1%positive := IntBuf [1; 0]%Z]>
         (<[2%positive := FloatBuf [3; 3]%float]>
         (<[3%positive := IntBuf [1; 0]%Z]>
         (<[4%positive := IntBuf [0; 1; 2]%Z]> ∅)))) [].

Definition seeds2 : ndarray := NdArray 1%positive [2].

Definition graph22 : csr_matrix :=
  CsrMatrix (2, 2) (NdArray 2%positive [2]) (NdArray 3%positive [2])
            (NdArray 4%positive [3]).

(** What [distance_transform_edt] makes of a [scales] array of shape [sh]
    holding [b]: the exception it raises, or the value of the scales it
    hands on. *)
Definition scales_outcome (sh : list nat) (b : buffer)
    : exn + (list nat * buffer) :=
  if bool_decide (length sh ≠ 1)
  then inl (ValueError "`scales` must be a 1-dimensional array.")
  else if decide (sh !! 0 = Some 2)
  then
    match buffer_items b !! 0, buffer_items b !! 1 with
    | Some x0, Some x1 => inr (np_array_value [SInt 1; x0; x1])
    | _, _ => inl (IndexError "index out of bounds")
    end
  else if bool_decide (sh !! 0 ≠ Some 3)
  then inl (ValueError ("`scales` must be a 2 or 3-dimensional array, "
                        +:+ pretty (length sh) +:+ " found."))
  else inr (sh, b).

(** ** Python's [%] on strings

    The messages of the wrapper are built with [fmt % args].  The conversions
    the source uses are [%d] and [%r], on ints and on tuples of ints. *)

Inductive fmt_arg : Type :=
| ArgInt (n : nat)
| ArgTuple (t : list nat).

Definition fmt_convert (spec : Ascii.ascii) (x : fmt_arg) : exn + string :=
  if decide (spec = "r"%char) then
    inr (match x with ArgInt n => pretty n | ArgTuple t => repr_tuple t end)
  else if decide (spec = "d"%char) then
    match x with
    | ArgInt n => inr (pretty n)
    | ArgTuple _ =>
        inl (TypeError "%d format: a real number is required, not tuple")
    end
  else inl (ValueError "unsupported format character").

(** [fmt % args], with [args] the tuple of values to convert (a right-hand
    side that is a tuple is that tuple; any other value is a 1-tuple). *)
Fixpoint py_format (fmt : string) (args : list fmt_arg) : exn + string :=
  match fmt with
  | EmptyString =>
      match args with
      | [] => inr EmptyString
      | _ => inl (TypeError
                    "not all arguments converted during string formatting")
      end
  | String ch rest =>
      if decide (ch = "%"%char) then
        match rest with
        | EmptyString => inl (ValueError "incomplete format")
        | String spec rest' =>
            if decide (spec = "%"%char) then
              match py_format rest' args with
              | inl e => inl e
              | inr s => inr (String "%"%char s)
              end
            else
              match args with
              | [] => inl (TypeError "not enough arguments for format string")
              | x :: args' =>
                  match fmt_convert spec x with
                  | inl e => inl e
                  | inr sx =>
                      match py_format rest' args' with
                      | inl e => inl e
                      | inr s => inr (sx +:+ s)
                      end
                  end
              end
        end
      else
        match py_format rest args with
        | inl e => inl e
        | inr s => inr (String ch s)
        end
  end.

(** ** Reasoning about runs *)

(** *** The monad *)

Lemma run_bind {A B} (m : M A) (f : A → M B) st :
  (m ≫= f) st =
  match m st with
  | (inl e, st') => (inl e, st')
  | (inr x, st') => f x st'
  end.
Proof. reflexivity. Qed.

Lemma run_ret_bind {A B} (x : A) (f : A → M B) st : (mret x ≫= f) st = f x st.
Proof. reflexivity. Qed.

Lemma run_bind_inr {A B} (m : M A) (f : A → M B) st x st' :
  m st = (inr x, st') → (m ≫= f) st = f x st'.
Proof. intros H. by rewrite run_bind, H. Qed.

Lemma run_bind_assoc {A B C} (m : M A) (f : A → M B) (g : B → M C) st :
  ((m ≫= f) ≫= g) st = (m ≫= λ x, f x ≫= g) st.
Proof. rewrite !run_bind. by destruct (m st) as [[e|x] st']. Qed.

Lemma run_bind_ext {A B} (m : M A) (f g : A → M B) st :
  (∀ x st', f x st' = g x st') → (m ≫= f) st = (m ≫= g) st.
Proof. intros H. rewrite !run_bind. by destruct (m st) as [[e|x] st']. Qed.

Lemma run_raise_if_true {B} (b : bool) e (f : () → M B) st :
  b = true → (raise_if b e ≫= f) st = (inl e, st).
Proof. by intros ->. Qed.

Lemma run_raise_if_false {B} (b : bool) e (f : () → M B) st :
  b = false → (raise_if b e ≫= f) st = f () st.
Proof. by intros ->. Qed.

Ltac raise_if_case :=
  match goal with
  | |- context [(raise_if ?b ?e ≫= ?f) ?st] =>
      destruct b;
      [rewrite run_raise_if_true by reflexivity
      |rewrite run_raise_if_false by reflexivity]
  end.

(** *** The store *)

Lemma fresh_loc_None (h : store) : h !! fresh (dom h) = None.
Proof. apply not_elem_of_dom, is_fresh. Qed.

Lemma alloc_subseteq (h : store) b : h ⊆ <[fresh (dom h) := b]> h.
Proof. apply insert_subseteq, fresh_loc_None. Qed.

Lemma holds_weaken h h' a v : holds h a v → h ⊆ h' → holds h' a v.
Proof. intros [? ?] ?. split; [done|]. by eapply lookup_weaken. Qed.

(** *** Computations that only allocate *)

Lemma preserves_ret {A} (x : A) : preserves (mret x).
Proof. intros st. reflexivity. Qed.

Lemma preserves_raise {A} e : preserves (@raise A e).
Proof. intros st. reflexivity. Qed.

Lemma preserves_raise_if c e : preserves (raise_if c e).
Proof. destruct c; [apply preserves_raise | apply preserves_ret]. Qed.

Lemma preserves_bind {A B} (m : M A) (f : A → M B) :
  preserves m → (∀ x, preserves (f x)) → preserves (m ≫= f).
Proof.
  intros Hm Hf st. rewrite run_bind.
  specialize (Hm st). destruct (m st) as [[e|x] st1]; simpl in *; [done|].
  etrans; [exact Hm | apply Hf].
Qed.

Lemma preserves_alloc b : preserves (alloc b).
Proof. intros st. apply alloc_subseteq. Qed.

Lemma preserves_load l : preserves (load l).
Proof. intros st. reflexivity. Qed.

Create HintDb preserves.

#[export] Hint Resolve preserves_ret preserves_raise preserves_raise_if
  preserves_alloc preserves_load : preserves.

Ltac preserves_step :=
  match goal with
  | |- preserves (_ ≫= _) => apply preserves_bind; [|intros ?]
  | |- preserves (match ?x with _ => _ end) => destruct x
  | |- preserves (let _ := _ in _) => cbv zeta
  | |- preserves _ => solve [auto with preserves]
  end.

Lemma preserves_np_expand_dims a axis : preserves (np_expand_dims a axis).
Proof. unfold np_expand_dims. repeat preserves_step. Qed.

Lemma preserves_np_ones n : preserves (np_ones n).
Proof. unfold np_ones. repeat preserves_step. Qed.

Lemma preserves_np_ones_like_bool a : preserves (np_ones_like_bool a).
Proof. unfold np_ones_like_bool. repeat preserves_step. Qed.

Lemma preserves_np_array t : preserves (np_array t).
Proof. unfold np_array. repeat preserves_step. Qed.

Lemma preserves_np_asarray x : preserves (np_asarray x).
Proof.
  unfold np_asarray. destruct x; [auto with preserves|apply preserves_np_array|].
  repeat preserves_step.
Qed.

Lemma preserves_astype_bool a : preserves (astype_bool a).
Proof. unfold astype_bool. repeat preserves_step. Qed.

Lemma preserves_getitem a i : preserves (getitem a i).
Proof. unfold getitem. repeat preserves_step. Qed.

#[export] Hint Resolve preserves_np_expand_dims preserves_np_ones
  preserves_np_ones_like_bool preserves_np_array preserves_np_asarray
  preserves_astype_bool preserves_getitem : preserves.

Lemma preserves_edt_scales scales : preserves (edt_scales scales).
Proof. unfold edt_scales. repeat preserves_step. Qed.

Section frame.

Variable _pyift : core.
Hypothesis _pyift_read_only : core_read_only _pyift.

Lemma preserves_invoke c : preserves (invoke _pyift c).
Proof.
  intros st. unfold invoke.
  specialize (_pyift_read_only c (heap st)).
  destruct (_pyift c (heap st)) as [r h]. exact _pyift_read_only.
Qed.

Ltac frame_step := first [exact (preserves_invoke _) | preserves_step].

Lemma preserves_seed_competition seeds image graph image_3d :
  preserves (seed_competition _pyift seeds image graph image_3d).
Proof. unfold seed_competition. repeat frame_step. Qed.

Lemma preserves_dynamic_arc_weight seeds image image_3d mode alpha :
  preserves (dynamic_arc_weight _pyift seeds image image_3d mode alpha).
Proof. unfold dynamic_arc_weight. repeat frame_step. Qed.

Lemma preserves_distance_transform_edt mask scales :
  preserves (distance_transform_edt _pyift mask scales).
Proof. unfold distance_transform_edt. repeat frame_step. Qed.

Lemma preserves_watershed_from_minima image mask penalization :
  preserves (watershed_from_minima _pyift image mask penalization).
Proof. unfold watershed_from_minima. repeat frame_step. Qed.

End frame.

(** *** Computations that do not call the core *)

Lemma silent_ret {A} (x : A) : silent (mret x).
Proof. done. Qed.

Lemma silent_raise {A} e : silent (@raise A e).
Proof. done. Qed.

Lemma silent_raise_if b e : silent (raise_if b e).
Proof. by destruct b. Qed.

Lemma silent_alloc b : silent (alloc b).
Proof. done. Qed.

Lemma silent_load l : silent (load l).
Proof. done. Qed.

Lemma silent_bind {A B} (m : M A) (f : A → M B) :
  silent m → (∀ x, silent (f x)) → silent (m ≫= f).
Proof.
  intros Hm Hf st. rewrite run_bind.
  specialize (Hm st). destruct (m st) as [[e|x] st1]; simpl in *; [done|].
  by rewrite Hf.
Qed.

Create HintDb silent.

#[export] Hint Resolve silent_ret silent_raise silent_raise_if silent_alloc
  silent_load : silent.

Ltac silent_step :=
  match goal with
  | |- silent (_ ≫= _) => apply silent_bind; [|intros ?]
  | |- silent (match ?x with _ => _ end) => destruct x
  | |- silent _ => solve [auto with silent]
  end.

Lemma silent_np_array t : silent (np_array t).
Proof. unfold np_array. repeat silent_step. Qed.

Lemma silent_getitem a i : silent (getitem a i).
Proof. unfold getitem. repeat silent_step. Qed.

Lemma silent_edt_scales scales : silent (edt_scales scales).
Proof.
  pose proof silent_np_array. pose proof silent_getitem.
  unfold edt_scales, np_asarray, np_ones. repeat silent_step.
Qed.

Lemma invoke_calls (c : core) call st :
  calls (invoke c call st).2 = calls st ++ [call].
Proof. unfold invoke. by destruct (c call (heap st)). Qed.

(** *** numpy operations *)

Lemma slice_to_last_snoc {A} (l : list A) x : slice_to_last (l ++ [x]) = l.
Proof.
  unfold slice_to_last. rewrite length_app. simpl.
  replace (length l + 1 - 1) with (length l) by lia.
  by rewrite take_app_length.
Qed.

Lemma np_expand_dims_last a st :
  np_expand_dims a (ndim a) st = (inr (NdArray (buf a) (shape a ++ [1])), st).
Proof.
  unfold np_expand_dims. rewrite decide_True by done.
  unfold ndim. by rewrite take_ge, drop_ge by done.
Qed.

Lemma getitem_Some a i x st :
  buffer_items (heap st !!! buf a) !! i = Some x → getitem a i st = (inr x, st).
Proof. intros H. unfold getitem, load. rewrite run_bind. simpl. by rewrite H. Qed.

Lemma length_pack t : length (buffer_items (pack t)) = length t.
Proof.
  unfold pack. destruct t as [|s t]; [done|]. generalize (s :: t) as l.
  intros l. destruct (as_bools l) as [bs|] eqn:Hb.
  { cbn [buffer_items]. rewrite length_fmap. symmetry. by eapply length_mapM. }
  destruct (as_ints l) as [zs|] eqn:Hz.
  { cbn [buffer_items]. rewrite length_fmap. symmetry. by eapply length_mapM. }
  cbn [buffer_items]. by rewrite !length_fmap.
Qed.

(** With float scales the vector handed on is [(1.0, s0, s1)]. *)
Lemma np_array_value_pair_float f0 f1 :
  np_array_value [SInt 1; SFloat f0; SFloat f1]
  = ([3], FloatBuf [1%float; f0; f1]).
Proof. reflexivity. Qed.

Lemma buffer_astype_bool_BoolBuf l : buffer_astype_bool (BoolBuf l) = BoolBuf l.
Proof.
  unfold buffer_astype_bool. simpl. f_equal.
  rewrite <- list_fmap_compose. by rewrite <- (list_fmap_id l) at 2.
Qed.

Lemma buffer_astype_bool_idemp b :
  buffer_astype_bool (buffer_astype_bool b) = buffer_astype_bool b.
Proof. apply buffer_astype_bool_BoolBuf. Qed.

Example pack_bools : pack [SBool true; SBool false] = BoolBuf [true; false].
Proof. reflexivity. Qed.

Example pack_int_and_bools :
  pack [SInt 1; SBool true; SBool false] = IntBuf [1; 1; 0]%Z.
Proof. reflexivity. Qed.

Example pack_int_and_floats :
  pack [SInt 1; SFloat 0.5; SFloat 2] = FloatBuf [1; 0.5; 2]%float.
Proof. reflexivity. Qed.

Example astype_bool_floats :
  buffer_astype_bool (FloatBuf [0; (-0); 0.5; nan]%float)
  = BoolBuf [false; false; true; true].
Proof. reflexivity. Qed.

Example repr_tuple_shapes :
  repr_tuple [] = "()" ∧ repr_tuple [3] = "(3,)" ∧ repr_tuple [2; 10] = "(2, 10)".
Proof. done. Qed.

(** A NaN passes the range check on [alpha]: both comparisons are false. *)
Example alpha_nan_in_range : alpha_out_of_range nan = false.
Proof. reflexivity. Qed.

(** *** The stand-in core keeps the contracts *)

Lemma zero_core_edt_same_shape : core_edt_same_shape zero_core.
Proof. intros mask scales h d roots h' H. by simplify_eq/=. Qed.

Lemma zero_core_read_only : core_read_only zero_core.
Proof.
  intros call h.
  assert (∀ sh h, h ⊆ (zeros4 sh h).2) as H4.
  { intros sh h0. unfold zeros4. simpl.
    repeat (etrans; [|apply alloc_subseteq]). done. }
  assert (∀ sh h, h ⊆ (zeros2 sh h).2) as H2.
  { intros sh h0. unfold zeros2. simpl.
    repeat (etrans; [|apply alloc_subseteq]). done. }
  destruct call; simpl; first [apply H4 | apply H2].
Qed.

(** ** seed_competition *)

(** The dimension normalisation shared by [seed_competition] and
    [dynamic_arc_weight]. *)
Lemma run_normalize a (i3 : bool) st :
  (if decide (ndim a = 2) then
     if i3 then
       raise (ValueError "2-dimensional array cannot be converted to an 3D grid.")
     else np_expand_dims a 2
   else if bool_decide (ndim a = 3) && i3 then np_expand_dims a 3
   else mret a) st
  = if bool_decide (ndim a = 2) && i3
    then (inl (ValueError
                 "2-dimensional array cannot be converted to an 3D grid."), st)
    else (inr (normalized_image a i3), st).
Proof.
  unfold normalized_image.
  destruct (decide (ndim a = 2)) as [H2|H2].
  - rewrite (bool_decide_eq_true_2 _ H2). destruct i3; simpl; [done|].
    by rewrite <- H2, np_expand_dims_last.
  - rewrite (bool_decide_eq_false_2 _ H2). simpl.
    destruct (decide (ndim a = 3)) as [H3|H3].
    + rewrite (bool_decide_eq_true_2 _ H3). destruct i3; simpl; [|done].
      by rewrite <- H3, np_expand_dims_last.
    + by rewrite (bool_decide_eq_false_2 _ H3).
Qed.

(** The grid of a 2-D image is the image's own shape; that of a 3-D image
    is its shape when flagged [image_3d], and its first two axes otherwise. *)
Lemma grid_shape_expanded a (image_3d : bool) :
  ndim a = 2 ∨ (ndim a = 3 ∧ image_3d = true) →
  grid_shape a image_3d = shape a.
Proof.
  intros H. unfold grid_shape, normalized_image.
  destruct H as [H|[H ->]]; rewrite ?(bool_decide_eq_true_2 _ H), ?orb_true_r;
    simpl; apply slice_to_last_snoc.
Qed.

(** C1.  [seed_competition] raises, with the store and the call log as they
    were, exactly on the inputs the specification lists as invalid; on every
    other input it makes one call to the core (the grid or the graph
    backend) and its outcome is the outcome of that call. *)
Theorem seed_competition_validation (c : core) seeds image graph image_3d st :
  let r := seed_competition c seeds image graph image_3d st in
  let image_3d := kwarg false image_3d in
  (seed_competition_invalid seeds image graph image_3d ∧ ∃ e, r = (inl e, st))
  ∨ (¬ seed_competition_invalid seeds image graph image_3d ∧
     ((∃ a, image = PyNdarray a ∧ graph = PyNone ∧
            r = invoke c (seed_competition_grid (normalized_image a image_3d)
                                                seeds) st)
      ∨ (∃ g, image = PyNone ∧ graph = PyCsrMatrix g ∧
              r = invoke c (seed_competition_graph (data g) (indices g)
                                                   (indptr g) seeds) st))).
Proof.
  cbv zeta. unfold seed_competition. generalize (kwarg false image_3d) as i3.
  intros i3.
  destruct image as [|a|g|n], graph as [|a'|g'|n']; simpl;
    try (left; split; [done | eexists; reflexivity]);
    rewrite !run_ret_bind.
  - (* graph *)
    destruct (decide ((csr_shape g').1 = (csr_shape g').2)) as [Hsq|Hsq]; cycle 1.
    { left. split; [by left|]. rewrite run_raise_if_true; [by eexists|].
      by apply bool_decide_eq_true_2. }
    rewrite run_raise_if_false by (apply bool_decide_eq_false_2; tauto).
    destruct (decide (shape seeds = [(csr_shape g').1])) as [Hs|Hs].
    + right. split; [tauto|]. right. exists g'. split_and!; try done.
      rewrite run_raise_if_false
        by (apply bool_decide_eq_false_2; unfold ndim; rewrite Hs; simpl; tauto).
      rewrite run_raise_if_false
        by (apply bool_decide_eq_false_2; rewrite Hs; simpl; tauto).
      done.
    + left. split; [by right|].
      destruct (decide (ndim seeds = 1)) as [H1|H1].
      * rewrite run_raise_if_false by (apply bool_decide_eq_false_2; tauto).
        rewrite run_raise_if_true; [by eexists|].
        apply bool_decide_eq_true_2. intros Hl. apply Hs.
        unfold ndim in H1. by destruct (shape seeds) as [|x [|??]]; simplify_eq/=.
      * rewrite run_raise_if_true; [by eexists|]. by apply bool_decide_eq_true_2.
  - (* image *)
    destruct (decide (ndim a < 2 ∨ 4 < ndim a)) as [Hd|Hd].
    { left. split; [tauto|]. rewrite run_raise_if_true; [by eexists|].
      by apply bool_decide_eq_true_2. }
    rewrite run_raise_if_false by (by apply bool_decide_eq_false_2).
    rewrite run_bind, run_normalize.
    destruct (decide (ndim a = 2)) as [H2|H2];
      [rewrite (bool_decide_eq_true_2 _ H2)|rewrite (bool_decide_eq_false_2 _ H2)];
      simpl.
    + destruct i3; simpl.
      { left. split; [tauto|]. by eexists. }
      unfold grid_shape.
      destruct (decide (slice_to_last (shape (normalized_image a false))
                        = shape seeds)) as [Hg|Hg].
      * right. split; [intros [?|[?|[[_ ?]|?]]]; (done || lia)|].
        left. exists a. split_and!; try done.
        rewrite run_raise_if_false; [done|].
        apply bool_decide_eq_false_2. tauto.
      * left. split; [tauto|]. rewrite run_raise_if_true; [by eexists|].
        by apply bool_decide_eq_true_2.
    + unfold grid_shape.
      destruct (decide (slice_to_last (shape (normalized_image a i3))
                        = shape seeds)) as [Hg|Hg].
      * right. split; [intros [?|[?|[[? _]|?]]]; (done || lia)|].
        left. exists a. split_and!; try done.
        rewrite run_raise_if_false; [done|].
        apply bool_decide_eq_false_2. tauto.
      * left. split; [tauto|]. rewrite run_raise_if_true; [by eexists|].
        by apply bool_decide_eq_true_2.
Qed.

Lemma seed_competition_seeds_as_given (c : core) seeds image graph image_3d st :
  let r := seed_competition c seeds image graph image_3d st in
  rejected st r
  ∨ (∃ img, r = invoke c (seed_competition_grid img seeds) st)
  ∨ (∃ g, r = invoke c (seed_competition_graph (data g) (indices g)
                                               (indptr g) seeds) st).
Proof.
  cbv zeta. unfold seed_competition. cbv zeta.
  destruct image as [|a|g|n], graph as [|a'|g'|n']; simpl;
    try (left; by eexists); rewrite !run_ret_bind.
  - repeat (raise_if_case; [left; by eexists|]). right. right. by exists g'.
  - raise_if_case; [left; by eexists|].
    rewrite run_bind, run_normalize.
    destruct (bool_decide (ndim a = 2) && kwarg false image_3d);
      [left; by eexists|].
    raise_if_case; [left; by eexists|]. right. left. by eexists.
Qed.

(** ** dynamic_arc_weight *)

(** C2, as stated, fails: with [mode='root'] the call with [alpha=0.5]
    reaches the core while the call with [alpha=2] raises ValueError. *)
Lemma dynamic_arc_weight_alpha_counterexample :
  let r1 := dynamic_arc_weight zero_core seeds22 (PyNdarray image222) None
              (Some "root") (Some 0.5%float) st0 in
  let r2 := dynamic_arc_weight zero_core seeds22 (PyNdarray image222) None
              (Some "root") (Some 2%float) st0 in
  r1 ≠ r2
  ∧ calls r1.2 = [dynamic_arc_weight_grid_root image222 seeds22]
  ∧ r2 = (inl (ValueError "`alpha` must be between 0 and 1"), st0).
Proof.
  cbv zeta. split_and!.
  - intros H.
    apply (f_equal (λ r, match r.1 with inl _ => true | inr _ => false end)) in H.
    vm_compute in H. discriminate.
  - vm_compute. reflexivity.
  - vm_compute. reflexivity.
Qed.

(** C2, amended.  The test [alpha < 0 or alpha > 1] is applied in every
    mode: an [alpha] on which it is true makes the call fail before the core
    runs, whatever the mode.  With mode 'root' or 'label' that test is the
    only use of [alpha]: two calls that differ only in [alpha] have the same
    outcome whenever the test gives the same verdict on both values, so
    whenever neither value is below 0 or above 1. *)
Theorem dynamic_arc_weight_alpha_unused (c : core) seeds image image_3d st :
  (∀ mode alpha,
     alpha_out_of_range (kwarg 0.5%float alpha) = true →
     rejected st (dynamic_arc_weight c seeds image image_3d mode alpha st))
  ∧ (∀ mode alpha1 alpha2,
       kwarg "root" mode = "root" ∨ kwarg "root" mode = "label" →
       alpha_out_of_range (kwarg 0.5%float alpha1)
       = alpha_out_of_range (kwarg 0.5%float alpha2) →
       dynamic_arc_weight c seeds image image_3d mode alpha1 st
       = dynamic_arc_weight c seeds image image_3d mode alpha2 st).
Proof.
  split.
  - intros mode alpha. unfold dynamic_arc_weight, alpha_out_of_range. cbv zeta.
    intros H1. raise_if_case; [by eexists|].
    destruct (as_ndarray image); [|by eexists].
    raise_if_case; [by eexists|]. rewrite run_raise_if_true by done.
    by eexists.
  - intros mode alpha1 alpha2.
    unfold dynamic_arc_weight, alpha_out_of_range. cbv zeta.
    generalize (kwarg "root" mode) (kwarg 0.5%float alpha1)
      (kwarg 0.5%float alpha2) (kwarg false image_3d).
    intros m a1 a2 i3 Hm Ha. rewrite <- Ha.
    destruct ((a1 <? 0)%float || (1 <? a1)%float) eqn:H1.
    + raise_if_case; [done|]. destruct (as_ndarray image); [|done].
      raise_if_case; [done|]. by rewrite !run_raise_if_true by done.
    + destruct Hm as [-> | ->]; reflexivity.
Qed.

Lemma dynamic_arc_weight_alpha_unused_witness :
  rejected st0
    (dynamic_arc_weight zero_core seeds22 (PyNdarray image222) None
       (Some "exp") (Some 2%float) st0)
  ∧ dynamic_arc_weight zero_core seeds22 (PyNdarray image222) None
      (Some "label") (Some 0.25%float) st0
    = dynamic_arc_weight zero_core seeds22 (PyNdarray image222) None
        (Some "label") (Some 1%float) st0.
Proof.
  destruct (dynamic_arc_weight_alpha_unused zero_core seeds22
              (PyNdarray image222) None st0) as [Hrej Heq].
  split.
  - apply Hrej. reflexivity.
  - apply Heq; [by right | reflexivity].
Defined.

(** C7.  A [mode] outside 'exp', 'label', 'root' raises ValueError with the
    store and call log untouched; for a valid [mode] the call either fails
    validation (again before the core runs) or makes exactly one call, to
    the backend of that mode, whose outcome it returns. *)
Theorem dynamic_arc_weight_mode_dispatch (c : core) seeds image image_3d
    mode alpha st :
  let r := dynamic_arc_weight c seeds image image_3d mode alpha st in
  let image_3d := kwarg false image_3d in
  let mode := kwarg "root" mode in
  let alpha := kwarg 0.5%float alpha in
  ((mode ∉ allowed_modes)
   ∧ r = (inl (ValueError "`mode` must belong to ('exp', 'label', 'root')"), st))
  ∨ (mode ∈ allowed_modes
     ∧ dynamic_arc_weight_invalid seeds image image_3d alpha
     ∧ ∃ e, r = (inl e, st))
  ∨ (¬ dynamic_arc_weight_invalid seeds image image_3d alpha
     ∧ ∃ a, image = PyNdarray a ∧
         let image := normalized_image a image_3d in
         (mode = "exp"
          ∧ r = invoke c (dynamic_arc_weight_grid_exp_decay image seeds alpha) st)
         ∨ (mode = "label"
            ∧ r = invoke c (dynamic_arc_weight_grid_label image seeds) st)
         ∨ (mode = "root"
            ∧ r = invoke c (dynamic_arc_weight_grid_root image seeds) st)).
Proof.
  cbv zeta. unfold dynamic_arc_weight. cbv zeta.
  generalize (kwarg "root" mode) (kwarg 0.5%float alpha) (kwarg false image_3d).
  clear mode alpha image_3d. intros mode alpha i3.
  destruct (decide (mode ∈ allowed_modes)) as [Hm|Hm]; cycle 1.
  { left. split; [done|]. rewrite run_raise_if_true; [done|].
    by apply bool_decide_eq_true_2. }
  right. rewrite run_raise_if_false by (apply bool_decide_eq_false_2; tauto).
  destruct image as [|a|g|n]; simpl;
    try (left; split_and!; [done | done | eexists; reflexivity]).
  destruct (decide (ndim a < 2 ∨ 4 < ndim a)) as [Hd|Hd].
  { left. split_and!; [done | tauto |].
    rewrite run_raise_if_true; [by eexists|]. by apply bool_decide_eq_true_2. }
  rewrite run_raise_if_false by (by apply bool_decide_eq_false_2).
  fold (alpha_out_of_range alpha).
  destruct (alpha_out_of_range alpha) eqn:Ha.
  { left. split_and!; [done | tauto |]. rewrite run_raise_if_true; by eauto. }
  rewrite run_raise_if_false by done.
  rewrite run_bind, run_normalize.
  destruct (bool_decide (ndim a = 2) && i3) eqn:H2.
  { left. split_and!; [done | | by eexists].
    apply andb_true_iff in H2 as [H2 ->]. apply bool_decide_eq_true_1 in H2.
    tauto. }
  destruct (decide (grid_shape a i3 = shape seeds)) as [Hg|Hg]; cycle 1.
  { left. split_and!; [done | tauto |].
    rewrite run_raise_if_true; [by eexists|]. by apply bool_decide_eq_true_2. }
  rewrite run_raise_if_false by (apply bool_decide_eq_false_2; tauto).
  right. split.
  { intros [?|[?|[?|[[? ->]|?]]]]; try (done || lia).
    by rewrite andb_true_r, bool_decide_eq_true_2 in H2. }
  exists a. split; [done|].
  unfold allowed_modes in Hm.
  repeat (apply elem_of_cons in Hm as [->|Hm]); [auto..|].
  by apply elem_of_nil in Hm.
Qed.

Lemma dynamic_arc_weight_seeds_as_given (c : core) seeds image image_3d
    mode alpha st :
  let r := dynamic_arc_weight c seeds image image_3d mode alpha st in
  rejected st r
  ∨ ∃ img,
      r = invoke c (dynamic_arc_weight_grid_exp_decay img seeds
                      (kwarg 0.5%float alpha)) st
      ∨ r = invoke c (dynamic_arc_weight_grid_label img seeds) st
      ∨ r = invoke c (dynamic_arc_weight_grid_root img seeds) st.
Proof.
  cbv zeta. unfold dynamic_arc_weight. cbv zeta.
  raise_if_case; [left; by eexists|].
  destruct image as [|a|g|n]; simpl; try (left; by eexists).
  do 2 (raise_if_case; [left; by eexists|]).
  rewrite run_bind, run_normalize.
  destruct (bool_decide (ndim a = 2) && kwarg false image_3d);
    [left; by eexists|].
  raise_if_case; [left; by eexists|].
  repeat case_decide; [right; eexists; eauto..|].
  left. by eexists.
Qed.

(** ** distance_transform_edt *)

Lemma distance_transform_edt_stages (c : core) a scales st :
  distance_transform_edt c (PyNdarray a) scales st
  = (scales ← edt_scales scales;
     raise_if (bool_decide (ndim a < 2 ∨ 3 < ndim a))
       (ValueError ("`image` must be a 2 or 3-dimensional array, "
                    +:+ pretty (ndim a) +:+ " found."));;
     mask_bool ← astype_bool a;
     '(distance, _) ← invoke c (euclidean_distance_transform_grid mask_bool scales);
     mret distance) st.
Proof.
  unfold distance_transform_edt, edt_scales. simpl.
  rewrite run_bind_assoc. apply run_bind_ext. intros x1 st1.
  rewrite run_bind_assoc. apply run_bind_ext. intros x2 st2.
  rewrite run_bind_assoc. apply run_bind_ext. intros x3 st3.
  rewrite run_bind_assoc. apply run_bind_ext. intros x4 st4.
  rewrite run_bind_assoc. apply run_bind_ext. intros x5 st5.
  by rewrite run_ret_bind.
Qed.

(** [scales] omitted: a fresh [np.ones(3)]. *)
Lemma edt_scales_None st :
  ∃ s st1, edt_scales None st = (inr s, st1)
    ∧ holds (heap st1) s ([3], FloatBuf [1; 1; 1]%float).
Proof.
  eexists _, _. split; [reflexivity|]. split; [done|]. simpl.
  apply lookup_insert_eq.
Qed.

(** An array already of length 3 is passed on as it is. *)
Lemma edt_scales_ndarray_3 s st :
  shape s = [3] → edt_scales (Some (AlNdarray s)) st = (inr s, st).
Proof.
  intros Hs. unfold edt_scales. rewrite !run_ret_bind.
  rewrite run_raise_if_false
    by (apply bool_decide_eq_false_2; unfold ndim; rewrite Hs; simpl; tauto).
  rewrite decide_False by (by rewrite Hs).
  rewrite run_ret_bind.
  by rewrite run_raise_if_false
    by (apply bool_decide_eq_false_2; rewrite Hs; simpl; tauto).
Qed.

(** A length-2 array [(s0, s1)] becomes a fresh [(1, s0, s1)]. *)
Lemma edt_scales_ndarray_2 s s0 s1 st :
  shape s = [2] → buffer_items (heap st !!! buf s) = [s0; s1] →
  ∃ s' st1, edt_scales (Some (AlNdarray s)) st = (inr s', st1)
    ∧ holds (heap st1) s' (np_array_value [SInt 1; s0; s1]).
Proof.
  intros Hs Hi. unfold edt_scales. rewrite !run_ret_bind.
  rewrite run_raise_if_false
    by (apply bool_decide_eq_false_2; unfold ndim; rewrite Hs; simpl; tauto).
  rewrite decide_True by (by rewrite Hs).
  rewrite !run_bind_assoc.
  rewrite (run_bind_inr _ _ _ s0 st) by (apply getitem_Some; by rewrite Hi).
  rewrite !run_bind_assoc.
  rewrite (run_bind_inr _ _ _ s1 st) by (apply getitem_Some; by rewrite Hi).
  eexists _, _. split; [reflexivity|]. split; [done|]. simpl.
  apply lookup_insert_eq.
Qed.

(** Any other length of a one-dimensional array is refused. *)
Lemma edt_scales_ndarray_other s n st :
  shape s = [n] → n ≠ 2 → n ≠ 3 →
  edt_scales (Some (AlNdarray s)) st
  = (inl (ValueError "`scales` must be a 2 or 3-dimensional array, 1 found."),
     st).
Proof.
  intros Hs H2 H3. unfold edt_scales. rewrite !run_ret_bind.
  rewrite run_raise_if_false
    by (apply bool_decide_eq_false_2; unfold ndim; rewrite Hs; simpl; tauto).
  rewrite decide_False by (rewrite Hs; simpl; congruence).
  rewrite run_ret_bind.
  rewrite run_raise_if_true
    by (apply bool_decide_eq_true_2; rewrite Hs; simpl; congruence).
  unfold ndim. by rewrite Hs.
Qed.

(** A Python sequence is first turned into a fresh one-dimensional array. *)
Lemma edt_scales_seq t st :
  edt_scales (Some (AlSeq t)) st
  = edt_scales (Some (AlNdarray (NdArray (fresh (dom (heap st))) [length t])))
      (State (<[fresh (dom (heap st)) := pack t]> (heap st))
             (calls st)).
Proof. reflexivity. Qed.

Lemma distance_transform_edt_run (c : core) a scales st :
  distance_transform_edt c (PyNdarray a) scales st
  = match edt_scales scales st with
    | (inl e, st1) => (inl e, st1)
    | (inr s, st1) =>
        if bool_decide (ndim a < 2 ∨ 3 < ndim a)
        then (inl (ValueError ("`image` must be a 2 or 3-dimensional array, "
                               +:+ pretty (ndim a) +:+ " found.")), st1)
        else
          let l := fresh (dom (heap st1)) in
          edt_via_core c (NdArray l (shape a)) s
            (State (<[l := buffer_astype_bool (heap st1 !!! buf a)]> (heap st1))
                   (calls st1))
    end.
Proof.
  rewrite distance_transform_edt_stages, run_bind.
  destruct (edt_scales scales st) as [[e|s] st1]; [done|].
  destruct (bool_decide (ndim a < 2 ∨ 3 < ndim a)) eqn:Hd.
  - by rewrite run_raise_if_true.
  - rewrite run_raise_if_false by done.
    unfold astype_bool, load, alloc. rewrite !run_bind. simpl.
    unfold edt_via_core. rewrite run_bind.
    destruct (invoke c _ _) as [[e|[d roots]] st2]; reflexivity.
Qed.

(** Every run of [distance_transform_edt] either raises before the core is
    called, or calls it once on a boolean copy of the mask and on the
    scales [edt_scales] produced. *)
Lemma distance_transform_edt_outcome (c : core) mask scales st :
  let r := distance_transform_edt c mask scales st in
  rejected st r
  ∨ ∃ a s st1 m st2,
      mask = PyNdarray a ∧ 2 ≤ ndim a ≤ 3
      ∧ edt_scales scales st = (inr s, st1)
      ∧ r = edt_via_core c m s st2
      ∧ calls st2 = calls st ∧ heap st1 ⊆ heap st2 ∧ shape m = shape a
      ∧ ∀ b, heap st !! buf a = Some b →
             holds (heap st2) m (shape a, buffer_astype_bool b).
Proof.
  cbv zeta. destruct mask as [|a|g|n]; try (left; by eexists).
  rewrite distance_transform_edt_run.
  pose proof (silent_edt_scales scales st) as Hc.
  pose proof (preserves_edt_scales scales st) as Hh.
  destruct (edt_scales scales st) as [[e|s] st1]; simpl in *.
  { left. by exists e. }
  case_bool_decide as Hd.
  { left. by eexists. }
  right. eexists a, s, st1, _, _. split_and!; try done; try lia.
  - apply alloc_subseteq.
  - intros b Hb.
    rewrite (lookup_total_correct (heap st1) _ b) by (by eapply lookup_weaken).
    split; [done|]. apply lookup_insert_eq.
Qed.

(** C3, as stated, fails for one scale: a length-1 [scales] is refused with
    ValueError although the mask is a valid 2-D array. *)
Lemma distance_transform_edt_one_scale_counterexample :
  let r := distance_transform_edt zero_core (PyNdarray seeds22)
             (Some (AlSeq [SFloat 2])) st0 in
  r.1 = inl (ValueError "`scales` must be a 2 or 3-dimensional array, 1 found.")
  ∧ calls r.2 = [].
Proof. cbv zeta. split; vm_compute; reflexivity. Qed.

(** C3, amended.  On a valid mask, [distance_transform_edt] reaches the
    core for a one-dimensional [scales] of length 2 or 3 and refuses every
    other length (length 1 included) with ValueError; with [scales] omitted
    the core is handed [np.ones(3)]. *)
Theorem distance_transform_edt_scales_arity (c : core) a scales st :
  2 ≤ ndim a ≤ 3 →
  let r := distance_transform_edt c (PyNdarray a) scales st in
  match scales with
  | None =>
      ∃ m s st1, r = edt_via_core c m s st1 ∧ calls st1 = calls st
        ∧ holds (heap st1) s ([3], FloatBuf [1; 1; 1]%float)
  | Some x =>
      ∀ n, al_shape x = [n] → length (al_items (heap st) x) = n →
        if decide (n = 2 ∨ n = 3)
        then ∃ m s st1, r = edt_via_core c m s st1 ∧ calls st1 = calls st
        else ∃ st1,
          r = (inl (ValueError
                 "`scales` must be a 2 or 3-dimensional array, 1 found."), st1)
          ∧ calls st1 = calls st
  end.
Proof.
  intros Hd r. subst r. rewrite distance_transform_edt_run.
  rewrite bool_decide_eq_false_2 by lia.
  pose proof (silent_edt_scales scales st) as Hc.
  destruct scales as [x|].
  - intros n Hn Hl.
    assert (∃ s st', edt_scales (Some x) st = edt_scales (Some (AlNdarray s)) st'
              ∧ shape s = [n] ∧ length (buffer_items (heap st' !!! buf s)) = n)
      as (s & st' & He & Hs & Hi).
    { destruct x as [s|t|v]; cbn [al_shape al_items] in *;
        [by exists s, st| |done].
      eexists _, _. split; [apply edt_scales_seq|]. split; [done|].
      cbn [heap buf]. rewrite lookup_total_insert_eq, length_pack.
      congruence. }
    rewrite He in Hc |- *. clear He.
    destruct (decide (n = 2 ∨ n = 3)) as [[->| ->]|Hn'].
    + destruct (buffer_items (heap st' !!! buf s)) as [|s0 [|s1 [|??]]] eqn:Hb;
        simplify_eq/=.
      destruct (edt_scales_ndarray_2 s s0 s1 st' Hs Hb) as (s' & st1 & Hr & _).
      rewrite Hr in Hc |- *. by eexists _, _, _.
    + rewrite edt_scales_ndarray_3 in Hc |- * by done. by eexists _, _, _.
    + rewrite (edt_scales_ndarray_other s n) in Hc |- * by tauto. by eexists.
  - destruct (edt_scales_None st) as (s & st1 & Hr & Hs).
    rewrite Hr in Hc |- *. eexists _, s, _. split_and!; [done..|].
    eapply holds_weaken; [done | apply alloc_subseteq].
Qed.

Lemma distance_transform_edt_scales_arity_witness :
  ∃ m s st1,
    distance_transform_edt zero_core (PyNdarray seeds22)
      (Some (AlSeq [SFloat 2; SFloat 3])) st0 = edt_via_core zero_core m s st1
    ∧ calls st1 = calls st0.
Proof.
  apply (distance_transform_edt_scales_arity zero_core seeds22
           (Some (AlSeq [SFloat 2; SFloat 3])) st0 ltac:(vm_compute; lia) 2);
    reflexivity.
Defined.

(** C10.  Given a length-2 [scales] holding [(s0, s1)], every call
    [distance_transform_edt] makes to the core carries a fresh length-3
    array [np.array((1, s0, s1))]; the call is made whenever the mask is a
    2-D or 3-D array. *)
Theorem distance_transform_edt_scales_pair (c : core) a x s0 s1 st :
  al_shape x = [2] → al_items (heap st) x = [s0; s1] →
  let r := distance_transform_edt c (PyNdarray a) (Some x) st in
  (¬ 2 ≤ ndim a ≤ 3 ∧ rejected st r)
  ∨ (2 ≤ ndim a ≤ 3
     ∧ ∃ m s st1, r = edt_via_core c m s st1 ∧ calls st1 = calls st
         ∧ holds (heap st1) s (np_array_value [SInt 1; s0; s1])).
Proof.
  intros Hsh Hit r. subst r. rewrite distance_transform_edt_run.
  pose proof (silent_edt_scales (Some x) st) as Hc.
  assert (∃ s st', edt_scales (Some x) st = edt_scales (Some (AlNdarray s)) st'
            ∧ shape s = [2] ∧ buffer_items (heap st' !!! buf s) = [s0; s1])
    as (s & st' & He & Hs & Hi).
  { destruct x as [s|t|v]; cbn [al_shape al_items] in *;
      [by exists s, st| |done].
    eexists _, _. split; [apply edt_scales_seq|]. split; [|].
    - simpl. congruence.
    - cbn [heap buf]. by rewrite lookup_total_insert_eq. }
  rewrite He in Hc |- *. clear He.
  destruct (edt_scales_ndarray_2 s s0 s1 st' Hs Hi) as (s' & st1 & Hr & Hv).
  rewrite Hr in Hc |- *. simpl in Hc.
  case_bool_decide as Hd.
  - left. split; [lia|]. by eexists.
  - right. split; [lia|]. eexists _, s', _. split_and!; [done..|].
    eapply holds_weaken; [done | apply alloc_subseteq].
Qed.

Lemma distance_transform_edt_scales_pair_witness :
  let r := distance_transform_edt zero_core (PyNdarray seeds22)
             (Some (AlNdarray scales2)) st0 in
  (¬ 2 ≤ ndim seeds22 ≤ 3 ∧ rejected st0 r)
  ∨ (2 ≤ ndim seeds22 ≤ 3
     ∧ ∃ m s st1, r = edt_via_core zero_core m s st1 ∧ calls st1 = calls st0
         ∧ holds (heap st1) s (np_array_value [SInt 1; SFloat 2; SFloat 3])).
Proof.
  apply (distance_transform_edt_scales_pair zero_core seeds22
           (AlNdarray scales2) (SFloat 2) (SFloat 3) st0);
    vm_compute; reflexivity.
Defined.

(** ** watershed_from_minima *)

Lemma watershed_from_minima_ndarray (c : core) img a p st :
  watershed_from_minima c (PyNdarray img) (PyNdarray a) p st
  = watershed_checked c img a (kwarg 1%float p) st.
Proof. reflexivity. Qed.

Lemma watershed_from_minima_None (c : core) img p st :
  watershed_from_minima c (PyNdarray img) PyNone p st
  = let l := fresh (dom (heap st)) in
    watershed_checked c img (NdArray l (shape img)) (kwarg 1%float p)
      (State (<[l := (all_true (shape img)).2]> (heap st)) (calls st)).
Proof. reflexivity. Qed.

Lemma watershed_checked_run (c : core) img a pen st :
  watershed_checked c img a pen st
  = if bool_decide (shape img ≠ shape a)
    then (inl (ValueError ("`image` and `mask` must have the same dimensions, "
                           +:+ repr_tuple (shape img) +:+ " and "
                           +:+ repr_tuple (shape a) +:+ " found.")), st)
    else if bool_decide (ndim img < 2 ∨ 3 < ndim img)
    then (inl (ValueError ("`image` must be a 2 or 3-dimensional array, "
                           +:+ pretty (ndim img) +:+ " found.")), st)
    else
      let l := fresh (dom (heap st)) in
      invoke c (watershed_from_minima_grid img (NdArray l (shape a)) pen)
        (State (<[l := buffer_astype_bool (heap st !!! buf a)]> (heap st))
               (calls st)).
Proof.
  unfold watershed_checked.
  destruct (bool_decide (shape img ≠ shape a)) eqn:Hs.
  { by rewrite run_raise_if_true. }
  rewrite run_raise_if_false by done.
  destruct (bool_decide (ndim img < 2 ∨ 3 < ndim img)) eqn:Hd.
  { by rewrite run_raise_if_true. }
  rewrite run_raise_if_false by done.
  reflexivity.
Qed.

(** C5, as stated, fails: a negative [penalization] is not rejected, the
    core is called with it. *)
Lemma watershed_from_minima_penalization_counterexample :
  let r := watershed_from_minima zero_core (PyNdarray gray22) PyNone
             (Some (-1)%float) st0 in
  (∃ maps, r.1 = inr maps)
  ∧ ∃ mask, calls r.2 = [watershed_from_minima_grid gray22 mask (-1)%float].
Proof.
  cbv zeta. split.
  - eexists. vm_compute. reflexivity.
  - eexists. vm_compute. reflexivity.
Qed.

(** C5, amended.  [watershed_from_minima] does not look at [penalization]:
    whether a call is rejected is decided by [image] and [mask] alone, and a
    call that is not rejected hands the core the given value as it is
    (1.0 if omitted), positive or not. *)
Theorem watershed_from_minima_penalization_unchecked (c : core) image mask st :
  (∃ e st', calls st' = calls st
     ∧ ∀ p, watershed_from_minima c image mask p st = (inl e, st'))
  ∨ (∃ img m st1, calls st1 = calls st
       ∧ ∀ p, watershed_from_minima c image mask p st
              = invoke c (watershed_from_minima_grid img m (kwarg 1%float p))
                  st1).
Proof.
  destruct image as [|img|g|n]; try (left; by eexists _, _).
  destruct mask as [|a|g|n]; try (left; by eexists _, _).
  - (* mask omitted *)
    set (l := fresh (dom (heap st))).
    set (st1 := State (<[l := (all_true (shape img)).2]> (heap st)) (calls st)).
    pose proof (λ p, watershed_checked_run c img (NdArray l (shape img)) p st1)
      as Hrun.
    cbn [shape] in Hrun.
    rewrite bool_decide_eq_false_2 in Hrun by tauto.
    destruct (bool_decide (ndim img < 2 ∨ 3 < ndim img)).
    + left. eexists _, st1. split; [done|]. intros p.
      rewrite watershed_from_minima_None. apply Hrun.
    + right. eexists img, _, _. split; [|intros p].
      2: { rewrite watershed_from_minima_None. apply Hrun. }
      done.
  - pose proof (λ p, watershed_checked_run c img a p st) as Hrun.
    destruct (bool_decide (shape img ≠ shape a)).
    { left. eexists _, st. split; [done|]. intros p.
      rewrite watershed_from_minima_ndarray. apply Hrun. }
    destruct (bool_decide (ndim img < 2 ∨ 3 < ndim img)).
    + left. eexists _, st. split; [done|]. intros p.
      rewrite watershed_from_minima_ndarray. apply Hrun.
    + right. eexists img, _, _. split; [|intros p].
      2: { rewrite watershed_from_minima_ndarray. apply Hrun. }
      done.
Qed.

(** C8.  With [mask] omitted the core receives an all-true boolean mask
    of the image's shape, exactly as when the caller passes such a mask:
    the two calls are rejected together, or both call the core once on the
    same image, the same penalization and masks of equal value.  An omitted
    [penalization] is 1.0. *)
Theorem watershed_from_minima_defaults (c : core) img a p st :
  holds (heap st) a (all_true (shape img)) →
  let r_none := watershed_from_minima c (PyNdarray img) PyNone p st in
  let r_ones := watershed_from_minima c (PyNdarray img) (PyNdarray a) p st in
  (((∃ e, r_none.1 = inl e ∧ r_ones.1 = inl e)
    ∧ calls r_none.2 = calls st ∧ calls r_ones.2 = calls st)
   ∨ ∃ m st1 m' st1',
       r_none = invoke c (watershed_from_minima_grid img m (kwarg 1%float p)) st1
       ∧ r_ones
         = invoke c (watershed_from_minima_grid img m' (kwarg 1%float p)) st1'
       ∧ calls st1 = calls st ∧ calls st1' = calls st
       ∧ holds (heap st1) m (all_true (shape img))
       ∧ holds (heap st1') m' (all_true (shape img)))
  ∧ ∀ image mask,
      watershed_from_minima c image mask None st
      = watershed_from_minima c image mask (Some 1%float) st.
Proof.
  intros [Hsh Hb] r_none r_ones. split; [|intros; reflexivity].
  subst r_none r_ones. cbn [all_true fst snd] in Hsh, Hb.
  rewrite watershed_from_minima_None, watershed_from_minima_ndarray.
  cbv zeta. rewrite !watershed_checked_run.
  cbn [shape buf heap calls all_true fst snd]. rewrite Hsh.
  rewrite !bool_decide_eq_false_2 by tauto.
  destruct (bool_decide (ndim img < 2 ∨ 3 < ndim img)).
  { left. split; [by eexists|done]. }
  right. eexists _, _, _, _. split_and!; try done.
  - split; [done|]. cbn [shape buf heap all_true fst snd].
    rewrite lookup_total_insert_eq, buffer_astype_bool_BoolBuf.
    apply lookup_insert_eq.
  - split; [done|]. cbn [shape buf heap all_true fst snd].
    rewrite (lookup_total_correct _ _ _ Hb).
    rewrite buffer_astype_bool_BoolBuf. apply lookup_insert_eq.
Qed.

Lemma watershed_from_minima_defaults_witness :
  let r_none := watershed_from_minima zero_core (PyNdarray gray22) PyNone
                  None st0 in
  let r_ones := watershed_from_minima zero_core (PyNdarray gray22)
                  (PyNdarray ones22) None st0 in
  (((∃ e, r_none.1 = inl e ∧ r_ones.1 = inl e)
    ∧ calls r_none.2 = calls st0 ∧ calls r_ones.2 = calls st0)
   ∨ ∃ m st1 m' st1',
       r_none = invoke zero_core (watershed_from_minima_grid gray22 m 1%float) st1
       ∧ r_ones
         = invoke zero_core (watershed_from_minima_grid gray22 m' 1%float) st1'
       ∧ calls st1 = calls st0 ∧ calls st1' = calls st0
       ∧ holds (heap st1) m (all_true [2; 2])
       ∧ holds (heap st1') m' (all_true [2; 2]))
  ∧ ∀ image mask,
      watershed_from_minima zero_core image mask None st0
      = watershed_from_minima zero_core image mask (Some 1%float) st0.
Proof.
  apply (watershed_from_minima_defaults zero_core gray22 ones22 None st0).
  split; [reflexivity | vm_compute; reflexivity].
Defined.

(** ** Across the entry points: dtype coercion and the caller's arrays *)

(** C6, as stated, fails for seeds: a float64 seeds array reaches the core
    as the very array the caller passed, still float64. *)
Lemma seeds_not_coerced_counterexample :
  let r := seed_competition zero_core fseeds22 (PyNdarray image222) PyNone
             None st0 in
  calls r.2 = [seed_competition_grid image222 fseeds22]
  ∧ buffer_dtype <$> heap st0 !! buf fseeds22 = Some float64.
Proof. cbv zeta. split; vm_compute; reflexivity. Qed.

(** C6, amended.  [distance_transform_edt] and [watershed_from_minima]
    coerce the mask with [astype(bool)], so a call with a mask [a] and the
    call with its boolean copy [a'] have the same outcome.
    [seed_competition] and [dynamic_arc_weight] do not coerce: a call that
    reaches the core hands it the caller's seeds array as given. *)
Theorem mask_coerced_seeds_as_given (c : core) a a' b st :
  holds (heap st) a (shape a, b) →
  holds (heap st) a' (shape a, buffer_astype_bool b) →
  (∀ scales,
     distance_transform_edt c (PyNdarray a) scales st
     = distance_transform_edt c (PyNdarray a') scales st)
  ∧ (∀ image penalization,
       watershed_from_minima c image (PyNdarray a) penalization st
       = watershed_from_minima c image (PyNdarray a') penalization st)
  ∧ (∀ seeds image graph image_3d,
       let r := seed_competition c seeds image graph image_3d st in
       rejected st r
       ∨ (∃ img, r = invoke c (seed_competition_grid img seeds) st)
       ∨ (∃ g, r = invoke c (seed_competition_graph (data g) (indices g)
                                                    (indptr g) seeds) st))
  ∧ (∀ seeds image image_3d mode alpha,
       let r := dynamic_arc_weight c seeds image image_3d mode alpha st in
       rejected st r
       ∨ ∃ img,
           r = invoke c (dynamic_arc_weight_grid_exp_decay img seeds
                           (kwarg 0.5%float alpha)) st
           ∨ r = invoke c (dynamic_arc_weight_grid_label img seeds) st
           ∨ r = invoke c (dynamic_arc_weight_grid_root img seeds) st).
Proof.
  intros [_ Hb] [Hsh' Hb']. cbn [fst snd] in *. split_and!.
  - intros scales. rewrite !distance_transform_edt_run.
    pose proof (preserves_edt_scales scales st) as Hh.
    destruct (edt_scales scales st) as [[e|s] st1]; [done|]. simpl in Hh.
    unfold ndim. rewrite Hsh'.
    rewrite (lookup_total_correct (heap st1) (buf a) b)
      by (by eapply lookup_weaken).
    rewrite (lookup_total_correct (heap st1) (buf a') (buffer_astype_bool b))
      by (by eapply lookup_weaken).
    by rewrite buffer_astype_bool_idemp.
  - intros image p. destruct image as [|img|g|n]; try reflexivity.
    rewrite !watershed_from_minima_ndarray, !watershed_checked_run.
    rewrite Hsh'.
    rewrite (lookup_total_correct (heap st) (buf a) b) by done.
    rewrite (lookup_total_correct (heap st) (buf a') (buffer_astype_bool b))
      by done.
    by rewrite buffer_astype_bool_idemp.
  - intros. apply seed_competition_seeds_as_given.
  - intros. apply dynamic_arc_weight_seeds_as_given.
Qed.

Lemma mask_coerced_seeds_as_given_witness :
  (∀ scales,
     distance_transform_edt zero_core (PyNdarray mask22) scales st0
     = distance_transform_edt zero_core (PyNdarray bmask22) scales st0)
  ∧ (∀ image penalization,
       watershed_from_minima zero_core image (PyNdarray mask22) penalization st0
       = watershed_from_minima zero_core image (PyNdarray bmask22) penalization
           st0)
  ∧ (∀ seeds image graph image_3d,
       let r := seed_competition zero_core seeds image graph image_3d st0 in
       rejected st0 r
       ∨ (∃ img, r = invoke zero_core (seed_competition_grid img seeds) st0)
       ∨ (∃ g, r = invoke zero_core
                     (seed_competition_graph (data g) (indices g) (indptr g)
                                             seeds) st0))
  ∧ (∀ seeds image image_3d mode alpha,
       let r := dynamic_arc_weight zero_core seeds image image_3d mode alpha
                  st0 in
       rejected st0 r
       ∨ ∃ img,
           r = invoke zero_core (dynamic_arc_weight_grid_exp_decay img seeds
                                   (kwarg 0.5%float alpha)) st0
           ∨ r = invoke zero_core (dynamic_arc_weight_grid_label img seeds) st0
           ∨ r = invoke zero_core (dynamic_arc_weight_grid_root img seeds) st0).
Proof.
  apply (mask_coerced_seeds_as_given zero_core mask22 bmask22
           (IntBuf [0; 2; 0; 1]%Z) st0).
  - split; [reflexivity | vm_compute; reflexivity].
  - split; [reflexivity | vm_compute; reflexivity].
Defined.

(** C9.  When the core keeps to its read-only contract, a call to any of
    the four entry points, whether it returns or raises, leaves every array
    that was allocated before the call with the shape and the contents it
    had: the caller's seeds, image, graph arrays, mask and scales among
    them. *)
Theorem entry_points_preserve_inputs (c : core) st a v :
  core_read_only c → holds (heap st) a v →
  (∀ seeds image graph image_3d,
     holds (heap (seed_competition c seeds image graph image_3d st).2) a v)
  ∧ (∀ seeds image image_3d mode alpha,
       holds (heap (dynamic_arc_weight c seeds image image_3d mode alpha st).2)
             a v)
  ∧ (∀ mask scales, holds (heap (distance_transform_edt c mask scales st).2) a v)
  ∧ (∀ image mask penalization,
       holds (heap (watershed_from_minima c image mask penalization st).2) a v).
Proof.
  intros Hc Hv. split_and!; intros; (eapply holds_weaken; [exact Hv|]).
  - by apply preserves_seed_competition.
  - by apply preserves_dynamic_arc_weight.
  - by apply preserves_distance_transform_edt.
  - by apply preserves_watershed_from_minima.
Qed.

Lemma entry_points_preserve_inputs_witness :
  (∀ seeds image graph image_3d,
     holds (heap (seed_competition zero_core seeds image graph image_3d st0).2)
           mask22 ([2; 2], IntBuf [0; 2; 0; 1]%Z))
  ∧ (∀ seeds image image_3d mode alpha,
       holds (heap (dynamic_arc_weight zero_core seeds image image_3d mode
                      alpha st0).2)
             mask22 ([2; 2], IntBuf [0; 2; 0; 1]%Z))
  ∧ (∀ mask scales,
       holds (heap (distance_transform_edt zero_core mask scales st0).2)
             mask22 ([2; 2], IntBuf [0; 2; 0; 1]%Z))
  ∧ (∀ image mask penalization,
       holds (heap (watershed_from_minima zero_core image mask penalization
                      st0).2)
             mask22 ([2; 2], IntBuf [0; 2; 0; 1]%Z)).
Proof.
  apply (entry_points_preserve_inputs zero_core st0 mask22
           ([2; 2], IntBuf [0; 2; 0; 1]%Z) zero_core_read_only).
  split; [reflexivity | vm_compute; reflexivity].
Defined.

(** * Further properties of the four entry points *)

(** ** Runs in closed form *)

Lemma seed_competition_image_run (c : core) seeds a image_3d st :
  seed_competition c seeds (PyNdarray a) PyNone image_3d st
  = let i3 := kwarg false image_3d in
    if bool_decide (ndim a < 2 ∨ 4 < ndim a)
    then (inl (ValueError ("`image` must be a 2, 3 or 4-dimensional array, "
                           +:+ pretty (ndim a) +:+ " found.")), st)
    else if bool_decide (ndim a = 2) && i3
    then (inl (ValueError
                 "2-dimensional array cannot be converted to an 3D grid."), st)
    else if bool_decide (grid_shape a i3 ≠ shape seeds)
    then (inl (ValueError
                 ("`image` grid and `seeds` must have the same dimensions, "
                  +:+ repr_tuple (grid_shape a i3) +:+ " and "
                  +:+ repr_tuple (shape seeds) +:+ " found.")), st)
    else invoke c (seed_competition_grid (normalized_image a i3) seeds) st.
Proof.
  unfold seed_competition. cbv zeta. simpl. rewrite !run_ret_bind.
  raise_if_case; [done|]. rewrite run_bind, run_normalize.
  destruct (bool_decide (ndim a = 2) && kwarg false image_3d); [done|].
  unfold grid_shape. by raise_if_case.
Qed.

Lemma seed_competition_graph_run (c : core) seeds g image_3d st :
  seed_competition c seeds PyNone (PyCsrMatrix g) image_3d st
  = if bool_decide ((csr_shape g).1 ≠ (csr_shape g).2)
    then (inl (TypeError
                 "not all arguments converted during string formatting"), st)
    else if bool_decide (ndim seeds ≠ 1)
    then (inl (ValueError ("`seeds` must be a 1-dimensional array, "
                           +:+ pretty (ndim seeds) +:+ " found.")), st)
    else if bool_decide (shape seeds !! 0 ≠ Some (csr_shape g).1)
    then (inl (ValueError
                 ("`graph` and `seeds` dimensions does not match, "
                  +:+ pretty (csr_shape g).1 +:+ " and "
                  +:+ pretty (default 0 (shape seeds !! 0)) +:+ " found.")), st)
    else invoke c (seed_competition_graph (data g) (indices g) (indptr g)
                                          seeds) st.
Proof.
  unfold seed_competition. cbv zeta. simpl. rewrite !run_ret_bind.
  by repeat (raise_if_case; [done|]).
Qed.

Lemma dynamic_arc_weight_run (c : core) seeds a image_3d mode alpha st :
  dynamic_arc_weight c seeds (PyNdarray a) image_3d mode alpha st
  = let i3 := kwarg false image_3d in
    let mode := kwarg "root" mode in
    let alpha := kwarg 0.5%float alpha in
    if bool_decide (mode ∉ allowed_modes)
    then (inl (ValueError "`mode` must belong to ('exp', 'label', 'root')"), st)
    else if bool_decide (ndim a < 2 ∨ 4 < ndim a)
    then (inl (ValueError ("`image` must be a 2, 3 or 4-dimensional array, "
                           +:+ pretty (ndim a) +:+ " found.")), st)
    else if alpha_out_of_range alpha
    then (inl (ValueError "`alpha` must be between 0 and 1"), st)
    else if bool_decide (ndim a = 2) && i3
    then (inl (ValueError
                 "2-dimensional array cannot be converted to an 3D grid."), st)
    else if bool_decide (grid_shape a i3 ≠ shape seeds)
    then (inl (ValueError
                 ("`image` grid and `seeds` must have the same dimensions, "
                  +:+ repr_tuple (grid_shape a i3) +:+ " and "
                  +:+ repr_tuple (shape seeds) +:+ " found.")), st)
    else if decide (mode = "exp")
    then invoke c (dynamic_arc_weight_grid_exp_decay (normalized_image a i3)
                     seeds alpha) st
    else if decide (mode = "label")
    then invoke c (dynamic_arc_weight_grid_label (normalized_image a i3) seeds) st
    else if decide (mode = "root")
    then invoke c (dynamic_arc_weight_grid_root (normalized_image a i3) seeds) st
    else (inl NotImplementedError, st).
Proof.
  unfold dynamic_arc_weight, alpha_out_of_range. cbv zeta. simpl.
  raise_if_case; [done|]. raise_if_case; [done|]. raise_if_case; [done|].
  rewrite run_bind, run_normalize.
  destruct (bool_decide (ndim a = 2) && kwarg false image_3d); [done|].
  unfold grid_shape. raise_if_case; [done|].
  by repeat case_decide.
Qed.

Lemma slice_to_last_inv {A} (l s : list A) :
  l ≠ [] → slice_to_last l = s → ∃ x, l = s ++ [x].
Proof.
  destruct l as [|y l] using rev_ind; [done|]. intros _ <-.
  exists y. by rewrite slice_to_last_snoc.
Qed.

(** The normalized image is a view on the caller's buffer with three or
    four axes. *)
Lemma normalized_image_view a (i3 : bool) :
  ¬ (ndim a < 2 ∨ 4 < ndim a) → bool_decide (ndim a = 2) && i3 = false →
  buf (normalized_image a i3) = buf a
  ∧ (ndim (normalized_image a i3) = 3 ∨ ndim (normalized_image a i3) = 4).
Proof.
  intros Hd H2. unfold normalized_image.
  destruct (decide (ndim a = 2)) as [E2|E2].
  { rewrite (bool_decide_eq_true_2 _ E2) in H2 |- *. simpl in *. subst i3.
    split; [done|]. left. unfold ndim in *. simpl. rewrite length_app. simpl.
    lia. }
  rewrite (bool_decide_eq_false_2 _ E2). simpl.
  destruct (decide (ndim a = 3)) as [E3|E3].
  { rewrite (bool_decide_eq_true_2 _ E3). simpl. destruct i3; simpl.
    - split; [done|]. right. unfold ndim in *. simpl. rewrite length_app.
      simpl. lia.
    - split; [done|]. by left. }
  rewrite (bool_decide_eq_false_2 _ E3). simpl. split; [done|]. right. lia.
Qed.

Lemma grid_view a (i3 : bool) seeds :
  ¬ (ndim a < 2 ∨ 4 < ndim a) → bool_decide (ndim a = 2) && i3 = false →
  grid_shape a i3 = shape seeds →
  (∃ bands, normalized_image a i3 = NdArray (buf a) (shape seeds ++ [bands]))
  ∧ (ndim seeds = 2 ∨ ndim seeds = 3).
Proof.
  intros Hd H2 Hg.
  destruct (normalized_image_view a i3 Hd H2) as [Hb Hn].
  unfold grid_shape in Hg.
  destruct (normalized_image a i3) as [b sh]. simpl in *. subst b.
  apply slice_to_last_inv in Hg as [bands ->].
  - split; [by exists bands|]. unfold ndim in *. simpl in Hn.
    rewrite length_app in Hn. simpl in Hn. lia.
  - intros ->. unfold ndim in Hn. simpl in Hn. lia.
Qed.

Ltac reject_now :=
  left; eexists; split_and!; [reflexivity | reflexivity | exact I].

(** ** What the core is handed by [seed_competition] and [dynamic_arc_weight] *)

(** X1.  A call to [seed_competition] that fails before the core runs
    raises a ValueError or a TypeError.  Otherwise the grid backend is
    handed the caller's seeds, 2-D or 3-D, and a view on the caller's image
    buffer whose shape is the seeds' shape followed by one band axis; or the
    graph backend is handed the three arrays of a square matrix and
    one-dimensional seeds with one entry per row. *)
Theorem seed_competition_core_arguments (c : core) seeds image graph
    image_3d st :
  let r := seed_competition c seeds image graph image_3d st in
  rejected_with is_validation_error st r
  ∨ (∃ a bands,
       image = PyNdarray a ∧ graph = PyNone
       ∧ (ndim seeds = 2 ∨ ndim seeds = 3)
       ∧ r = invoke c (seed_competition_grid
                         (NdArray (buf a) (shape seeds ++ [bands])) seeds) st)
  ∨ (∃ g n,
       image = PyNone ∧ graph = PyCsrMatrix g
       ∧ csr_shape g = (n, n) ∧ shape seeds = [n]
       ∧ r = invoke c (seed_competition_graph (data g) (indices g) (indptr g)
                                              seeds) st).
Proof.
  cbv zeta. destruct image as [|a|g|n], graph as [|a'|g'|n'];
    try reject_now.
  - rewrite seed_competition_graph_run.
    case_bool_decide as Hsq; [reject_now|].
    case_bool_decide as H1; [reject_now|].
    case_bool_decide as Hn; [reject_now|].
    right. right. exists g', (csr_shape g').1. split_and!; try done.
    + destruct (csr_shape g') as [rows cols]. simpl in *. f_equal.
      destruct (decide (rows = cols)); [done|tauto].
    + unfold ndim in H1.
      destruct (shape seeds) as [|x [|??]]; simpl in *; try (exfalso; lia).
      f_equal. destruct (decide (Some x = Some (csr_shape g').1)) as [[=]|];
        [done|tauto].
  - rewrite seed_competition_image_run. cbv zeta.
    destruct (decide (ndim a < 2 ∨ 4 < ndim a)) as [Hd|Hd].
    { rewrite (bool_decide_eq_true_2 _ Hd). reject_now. }
    rewrite (bool_decide_eq_false_2 _ Hd).
    destruct (bool_decide (ndim a = 2) && kwarg false image_3d) eqn:H2;
      [reject_now|].
    destruct (decide (grid_shape a (kwarg false image_3d) = shape seeds))
      as [Hg'|Hg']; cycle 1.
    { rewrite (bool_decide_eq_true_2 _ Hg'). reject_now. }
    rewrite bool_decide_eq_false_2 by tauto.
    destruct (grid_view a _ seeds Hd H2 Hg') as [[bands ->] Hn].
    right. left. by exists a, bands.
Qed.

(** X2.  A call to [dynamic_arc_weight] that fails before the core runs
    raises a ValueError or a TypeError: the final [raise NotImplementedError]
    is never reached.  Otherwise the backend of the mode is handed the
    caller's seeds, 2-D or 3-D, a view on the caller's image buffer shaped as
    the seeds followed by one band axis, and an [alpha] that passed the range
    check. *)
Theorem dynamic_arc_weight_core_arguments (c : core) seeds image image_3d
    mode alpha st :
  let r := dynamic_arc_weight c seeds image image_3d mode alpha st in
  let mode := kwarg "root" mode in
  let alpha := kwarg 0.5%float alpha in
  rejected_with is_validation_error st r
  ∨ ∃ a bands,
      image = PyNdarray a
      ∧ (ndim seeds = 2 ∨ ndim seeds = 3)
      ∧ alpha_out_of_range alpha = false
      ∧ let img := NdArray (buf a) (shape seeds ++ [bands]) in
        (mode = "exp"
         ∧ r = invoke c (dynamic_arc_weight_grid_exp_decay img seeds alpha) st)
        ∨ (mode = "label"
           ∧ r = invoke c (dynamic_arc_weight_grid_label img seeds) st)
        ∨ (mode = "root"
           ∧ r = invoke c (dynamic_arc_weight_grid_root img seeds) st).
Proof.
  cbv zeta. destruct image as [|a|g|n].
  1, 3, 4: unfold dynamic_arc_weight; cbv zeta;
    (raise_if_case; [reject_now|]); reject_now.
  rewrite dynamic_arc_weight_run. cbv zeta.
  destruct (decide (kwarg "root" mode ∈ allowed_modes)) as [Hm|Hm]; cycle 1.
  { rewrite (bool_decide_eq_true_2 _ Hm). reject_now. }
  rewrite bool_decide_eq_false_2 by tauto.
  destruct (decide (ndim a < 2 ∨ 4 < ndim a)) as [Hd|Hd].
  { rewrite (bool_decide_eq_true_2 _ Hd). reject_now. }
  rewrite (bool_decide_eq_false_2 _ Hd).
  destruct (alpha_out_of_range (kwarg 0.5%float alpha)) eqn:Ha; [reject_now|].
  destruct (bool_decide (ndim a = 2) && kwarg false image_3d) eqn:H2;
    [reject_now|].
  destruct (decide (grid_shape a (kwarg false image_3d) = shape seeds))
    as [Hg'|Hg']; cycle 1.
  { rewrite (bool_decide_eq_true_2 _ Hg'). reject_now. }
  rewrite bool_decide_eq_false_2 by tauto.
  destruct (grid_view a _ seeds Hd H2 Hg') as [[bands ->] Hn].
  right. exists a, bands. split_and!; try done.
  destruct (decide (kwarg "root" mode = "exp")); [auto|].
  destruct (decide (kwarg "root" mode = "label")); [auto|].
  destruct (decide (kwarg "root" mode = "root")); [auto|].
  exfalso. unfold allowed_modes in Hm.
  repeat (apply elem_of_cons in Hm as [?|Hm]); try done.
  by apply elem_of_nil in Hm.
Qed.

Lemma normalized_image_expand a (i3 : bool) :
  (ndim a = 2 ∧ i3 = false) ∨ (ndim a = 3 ∧ i3 = true) →
  normalized_image a i3 = NdArray (buf a) (shape a ++ [1]).
Proof.
  unfold normalized_image. intros [[H ->]|[H ->]].
  - by rewrite (bool_decide_eq_true_2 _ H).
  - rewrite (bool_decide_eq_true_2 _ H). by rewrite orb_true_r.
Qed.

Lemma normalized_image_id a (i3 : bool) :
  (ndim a = 3 ∧ i3 = false) ∨ (ndim a ≠ 2 ∧ ndim a ≠ 3) →
  normalized_image a i3 = a.
Proof.
  unfold normalized_image. intros [[H ->]|[H2 H3]].
  - rewrite bool_decide_eq_false_2 by lia. simpl. by rewrite andb_false_r.
  - by rewrite (bool_decide_eq_false_2 _ H2), (bool_decide_eq_false_2 _ H3).
Qed.

(** X3.  [image_3d] is consulted only for 2-D and 3-D images: with no
    image (the graph branch) or an image of any other dimension, the outcome
    of [seed_competition] and of [dynamic_arc_weight] does not depend on
    it. *)
Theorem image_3d_only_for_2d_and_3d (c : core) seeds image graph mode alpha
    i3 i3' st :
  image_3d_unused image →
  seed_competition c seeds image graph i3 st
  = seed_competition c seeds image graph i3' st
  ∧ dynamic_arc_weight c seeds image i3 mode alpha st
    = dynamic_arc_weight c seeds image i3' mode alpha st.
Proof.
  intros H. destruct image as [|a|g|n]; try (split; reflexivity).
  destruct H as [H2 H3]. split.
  - destruct graph as [|a'|g'|n']; try reflexivity.
    rewrite !seed_competition_image_run. cbv zeta. unfold grid_shape.
    rewrite !normalized_image_id by auto.
    by rewrite !(bool_decide_eq_false_2 _ H2).
  - rewrite !dynamic_arc_weight_run. cbv zeta. unfold grid_shape.
    rewrite !normalized_image_id by auto.
    by rewrite !(bool_decide_eq_false_2 _ H2).
Qed.

Lemma image_3d_only_for_2d_and_3d_witness :
  seed_competition zero_core seeds2 PyNone (PyCsrMatrix graph22) (Some true)
    st_graph
  = seed_competition zero_core seeds2 PyNone (PyCsrMatrix graph22) None st_graph
  ∧ dynamic_arc_weight zero_core seeds2 PyNone (Some true) None None st_graph
    = dynamic_arc_weight zero_core seeds2 PyNone None None None st_graph.
Proof.
  apply (image_3d_only_for_2d_and_3d zero_core seeds2 PyNone
           (PyCsrMatrix graph22) None None (Some true) None st_graph).
  exact I.
Defined.

(** X4.  A 2-D image and its single-band 3-D view [np.expand_dims(image, 2)]
    give the same outcome, and so do a 3-D volume passed with
    [image_3d=True] and its single-band 4-D view: the wrapper builds that
    very view, on the caller's buffer. *)
Theorem expanded_view_same_outcome (c : core) seeds a graph mode alpha
    i3 i3' st :
  (ndim a = 2 ∧ kwarg false i3 = false ∧ kwarg false i3' = false)
  ∨ (ndim a = 3 ∧ kwarg false i3 = true) →
  let view := NdArray (buf a) (shape a ++ [1]) in
  seed_competition c seeds (PyNdarray a) graph i3 st
  = seed_competition c seeds (PyNdarray view) graph i3' st
  ∧ dynamic_arc_weight c seeds (PyNdarray a) i3 mode alpha st
    = dynamic_arc_weight c seeds (PyNdarray view) i3' mode alpha st.
Proof.
  intros H view.
  assert (normalized_image a (kwarg false i3) = view
          ∧ normalized_image view (kwarg false i3') = view
          ∧ ¬ (ndim a < 2 ∨ 4 < ndim a) ∧ ¬ (ndim view < 2 ∨ 4 < ndim view)
          ∧ bool_decide (ndim a = 2) && kwarg false i3 = false
          ∧ bool_decide (ndim view = 2) && kwarg false i3' = false)
    as (Na & Nv & Da & Dv & Ea & Ev).
  { assert (ndim view = S (ndim a)) as Hv.
    { unfold view, ndim. simpl. rewrite length_app. simpl. lia. }
    destruct H as [(H2 & -> & ->)|(H3 & ->)].
    - split_and!; try lia;
        first [ apply normalized_image_expand; by auto
              | apply normalized_image_id; left; split; [lia|done]
              | apply andb_false_r ].
    - split_and!; try lia;
        first [ apply normalized_image_expand; by auto
              | apply normalized_image_id; right; lia
              | by rewrite bool_decide_eq_false_2 by lia ]. }
  split.
  - destruct graph as [|a'|g'|n']; try reflexivity.
    rewrite !seed_competition_image_run. cbv zeta. unfold grid_shape.
    rewrite Na, Nv, Ea, Ev.
    by rewrite (bool_decide_eq_false_2 _ Da), (bool_decide_eq_false_2 _ Dv).
  - rewrite !dynamic_arc_weight_run. cbv zeta. unfold grid_shape.
    rewrite Na, Nv, Ea, Ev.
    by rewrite (bool_decide_eq_false_2 _ Da), (bool_decide_eq_false_2 _ Dv).
Qed.

Lemma expanded_view_same_outcome_witness :
  let view := NdArray (buf gray22) (shape gray22 ++ [1]) in
  seed_competition zero_core seeds22 (PyNdarray gray22) PyNone None st0
  = seed_competition zero_core seeds22 (PyNdarray view) PyNone None st0
  ∧ dynamic_arc_weight zero_core seeds22 (PyNdarray gray22) None None None st0
    = dynamic_arc_weight zero_core seeds22 (PyNdarray view) None None None st0.
Proof.
  apply (expanded_view_same_outcome zero_core seeds22 gray22 PyNone None None
           None None st0).
  left. split_and!; reflexivity.
Defined.

(** X5.  [dynamic_arc_weight] applies to seeds, image and [image_3d] the
    checks of the image branch of [seed_competition]: for a valid mode and
    an [alpha] within range, the two are rejected together, and when they
    are not, their backends are handed the same image and the same seeds. *)
Theorem dynamic_arc_weight_same_contract (c : core) seeds image image_3d
    mode alpha st :
  kwarg "root" mode ∈ allowed_modes →
  alpha_out_of_range (kwarg 0.5%float alpha) = false →
  let r_sc := seed_competition c seeds image PyNone image_3d st in
  let r_daw := dynamic_arc_weight c seeds image image_3d mode alpha st in
  (rejected st r_sc ∧ rejected st r_daw)
  ∨ ∃ img,
      r_sc = invoke c (seed_competition_grid img seeds) st
      ∧ (r_daw = invoke c (dynamic_arc_weight_grid_exp_decay img seeds
                             (kwarg 0.5%float alpha)) st
         ∨ r_daw = invoke c (dynamic_arc_weight_grid_label img seeds) st
         ∨ r_daw = invoke c (dynamic_arc_weight_grid_root img seeds) st).
Proof.
  intros Hm Ha. cbv zeta. destruct image as [|a|g|n].
  1, 3, 4: left; split; [by eexists|];
    unfold dynamic_arc_weight; cbv zeta;
    (raise_if_case; by eexists).
  rewrite seed_competition_image_run, dynamic_arc_weight_run. cbv zeta.
  rewrite Ha. rewrite (bool_decide_eq_false_2 (_ ∉ _)) by tauto.
  destruct (bool_decide (ndim a < 2 ∨ 4 < ndim a));
    [left; split; by eexists|].
  destruct (bool_decide (ndim a = 2) && kwarg false image_3d);
    [left; split; by eexists|].
  destruct (bool_decide (grid_shape a (kwarg false image_3d) ≠ shape seeds));
    [left; split; by eexists|].
  right. eexists. split; [done|].
  destruct (decide (kwarg "root" mode = "exp")); [auto|].
  destruct (decide (kwarg "root" mode = "label")); [auto|].
  destruct (decide (kwarg "root" mode = "root")); [auto|].
  exfalso. unfold allowed_modes in Hm.
  repeat (apply elem_of_cons in Hm as [?|Hm]); try done.
  by apply elem_of_nil in Hm.
Qed.

Lemma dynamic_arc_weight_same_contract_witness :
  let r_sc := seed_competition zero_core seeds22 (PyNdarray image222) PyNone
                None st0 in
  let r_daw := dynamic_arc_weight zero_core seeds22 (PyNdarray image222) None
                 (Some "label") None st0 in
  (rejected st0 r_sc ∧ rejected st0 r_daw)
  ∨ ∃ img,
      r_sc = invoke zero_core (seed_competition_grid img seeds22) st0
      ∧ (r_daw = invoke zero_core (dynamic_arc_weight_grid_exp_decay img
                                     seeds22 0.5%float) st0
         ∨ r_daw = invoke zero_core (dynamic_arc_weight_grid_label img seeds22)
                     st0
         ∨ r_daw = invoke zero_core (dynamic_arc_weight_grid_root img seeds22)
                     st0).
Proof.
  apply (dynamic_arc_weight_same_contract zero_core seeds22 (PyNdarray image222)
           None (Some "label") None st0); [|reflexivity].
  unfold allowed_modes. simpl. apply list_elem_of_further, list_elem_of_here.
Defined.

(** ** [distance_transform_edt]: what is refused and what the core is handed *)

Lemma edt_scales_None_run st :
  edt_scales None st
  = let l := fresh (dom (heap st)) in
    (inr (NdArray l [3]),
     State (<[l := FloatBuf [1; 1; 1]%float]> (heap st)) (calls st)).
Proof. reflexivity. Qed.

Lemma edt_scales_scalar_run x st :
  edt_scales (Some (AlScalar x)) st
  = (inl (ValueError "`scales` must be a 1-dimensional array."),
     State (<[fresh (dom (heap st)) := pack [x]]> (heap st)) (calls st)).
Proof. reflexivity. Qed.

Lemma getitem_run a i st :
  getitem a i st
  = (match buffer_items (heap st !!! buf a) !! i with
     | Some x => inr x
     | None => inl (IndexError "index out of bounds")
     end, st).
Proof.
  unfold getitem, load. rewrite run_bind. simpl.
  by destruct (buffer_items (heap st !!! buf a) !! i).
Qed.

Lemma edt_scales_ndarray_run s st :
  edt_scales (Some (AlNdarray s)) st
  = if bool_decide (ndim s ≠ 1)
    then (inl (ValueError "`scales` must be a 1-dimensional array."), st)
    else if decide (shape s !! 0 = Some 2)
    then
      match buffer_items (heap st !!! buf s) !! 0,
            buffer_items (heap st !!! buf s) !! 1 with
      | Some x0, Some x1 =>
          let l := fresh (dom (heap st)) in
          (inr (NdArray l [3]),
           State (<[l := pack [SInt 1; x0; x1]]> (heap st)) (calls st))
      | _, _ => (inl (IndexError "index out of bounds"), st)
      end
    else if bool_decide (shape s !! 0 ≠ Some 3)
    then (inl (ValueError ("`scales` must be a 2 or 3-dimensional array, "
                           +:+ pretty (ndim s) +:+ " found.")), st)
    else (inr s, st).
Proof.
  unfold edt_scales. rewrite !run_ret_bind.
  raise_if_case; [done|].
  destruct (decide (shape s !! 0 = Some 2)) as [H2|H2].
  - rewrite !run_bind_assoc. rewrite (run_bind (getitem s 0)), getitem_run.
    destruct (buffer_items (heap st !!! buf s) !! 0) as [x0|]; [|done].
    rewrite !run_bind_assoc. rewrite (run_bind (getitem s 1)), getitem_run.
    destruct (buffer_items (heap st !!! buf s) !! 1) as [x1|]; [|done].
    reflexivity.
  - rewrite run_ret_bind. by raise_if_case.
Qed.

(** What [edt_scales] returns is of length 3; it is the caller's own array
    when that is a length-3 ndarray, and a fresh array in every other
    case. *)
Lemma edt_scales_inr scales st s st1 :
  edt_scales scales st = (inr s, st1) →
  shape s = [3]
  ∧ match scales with
    | Some (AlNdarray s0) =>
        if decide (shape s0 = [3]) then s = s0 ∧ st1 = st
        else buf s ∉ dom (heap st)
    | _ => buf s ∉ dom (heap st)
    end.
Proof.
  assert (∀ s0 st0 s st1,
            edt_scales (Some (AlNdarray s0)) st0 = (inr s, st1) →
            shape s = [3]
            ∧ if decide (shape s0 = [3]) then s = s0 ∧ st1 = st0
              else buf s = fresh (dom (heap st0))) as Hnd.
  { clear. intros s0 st0 s st1. rewrite edt_scales_ndarray_run.
    case_bool_decide as H1; [done|].
    destruct (decide (shape s0 !! 0 = Some 2)) as [H2|H2].
    - rewrite decide_False by (intros E; by rewrite E in H2).
      destruct (buffer_items _ !! 0); [|done].
      destruct (buffer_items _ !! 1); [|done].
      cbv zeta. by intros [= <- <-].
    - case_bool_decide as H3; [done|]. intros [= <- <-].
      assert (shape s0 = [3]) as E.
      { unfold ndim in H1. destruct (shape s0) as [|x [|??]];
          simpl in *; try (exfalso; lia).
        f_equal. destruct (decide (Some x = Some 3)) as [[=]|]; [done|tauto]. }
      by rewrite decide_True. }
  destruct scales as [[s0|t|x]|].
  - intros H. destruct (Hnd _ _ _ _ H) as [Hs Hc]. split; [done|].
    destruct (decide (shape s0 = [3])); [done|]. rewrite Hc. apply is_fresh.
  - rewrite edt_scales_seq. intros H. destruct (Hnd _ _ _ _ H) as [Hs Hc].
    split; [done|]. cbn [shape heap] in Hc.
    destruct (decide ([length t] = [3])) as [E|E].
    + destruct Hc as [-> _]. apply is_fresh.
    + rewrite Hc. intros Hin.
      apply (is_fresh (dom (<[fresh (dom (heap st)) := pack t]> (heap st)))).
      by apply (subseteq_dom _ _ (alloc_subseteq (heap st) (pack t))).
  - by rewrite edt_scales_scalar_run.
  - rewrite edt_scales_None_run. cbv zeta. intros [= <- <-].
    split; [done|]. apply is_fresh.
Qed.

Lemma edt_scales_inl scales st e st1 :
  scales_well_formed (heap st) scales →
  edt_scales scales st = (inl e, st1) →
  scales_invalid scales ∧ ∃ msg, e = ValueError msg.
Proof.
  assert (∀ s0 st0 e st1,
            length (buffer_items (heap st0 !!! buf s0)) = shape_size (shape s0) →
            edt_scales (Some (AlNdarray s0)) st0 = (inl e, st1) →
            (shape s0 ≠ [2] ∧ shape s0 ≠ [3]) ∧ ∃ msg, e = ValueError msg)
    as Hnd.
  { clear. intros s0 st0 e st1 Hwf. rewrite edt_scales_ndarray_run.
    case_bool_decide as H1.
    { intros [= <- <-]. split; [|by eexists].
      split; intros E; apply H1; unfold ndim; by rewrite E. }
    destruct (decide (shape s0 !! 0 = Some 2)) as [H2|H2].
    - assert (shape s0 = [2]) as E.
      { unfold ndim in H1. destruct (shape s0) as [|x [|??]];
          simpl in *; try (exfalso; lia). by simplify_eq. }
      rewrite E in Hwf. simpl in Hwf.
      destruct (buffer_items (heap st0 !!! buf s0)) as [|x0 [|x1 ?]];
        simpl in *; try lia. done.
    - case_bool_decide as H3; [|done]. intros [= <- <-].
      split; [|by eexists]. split; intros E; rewrite E in *; done. }
  intros Hwf. destruct scales as [[s0|t|x]|].
  - apply Hnd. exact Hwf.
  - rewrite edt_scales_seq. intros H. apply Hnd in H; [done|].
    cbn [heap buf shape]. rewrite lookup_total_insert_eq, length_pack.
    simpl. lia.
  - rewrite edt_scales_scalar_run. intros [= <- <-]. split; [done|by eexists].
  - by rewrite edt_scales_None_run.
Qed.

Lemma edt_scales_inr_valid scales st s st1 :
  edt_scales scales st = (inr s, st1) → ¬ scales_invalid scales.
Proof.
  assert (∀ s0 st0 s st1,
            edt_scales (Some (AlNdarray s0)) st0 = (inr s, st1) →
            shape s0 = [2] ∨ shape s0 = [3]) as Hnd.
  { clear. intros s0 st0 s st1. rewrite edt_scales_ndarray_run.
    case_bool_decide as H1; [done|].
    assert (∀ n, shape s0 !! 0 = Some n → shape s0 = [n]) as Hone.
    { intros n. unfold ndim in H1. destruct (shape s0) as [|x [|??]];
        simpl in *; try (exfalso; lia). by intros [= ->]. }
    destruct (decide (shape s0 !! 0 = Some 2)) as [H2|H2]; [by auto|].
    case_bool_decide as H3; [done|]. intros _. right. apply Hone.
    destruct (decide (shape s0 !! 0 = Some 3)); [done|tauto]. }
  destruct scales as [[s0|t|x]|]; simpl.
  - intros H [N2 N3]. by destruct (Hnd _ _ _ _ H).
  - rewrite edt_scales_seq. intros H [N2 N3]. by destruct (Hnd _ _ _ _ H).
  - by rewrite edt_scales_scalar_run.
  - tauto.
Qed.

(** C4.  [distance_transform_edt] returns the distance map alone.  Given a
    [scales] whose buffer matches its shape, the call fails before the core
    runs exactly on the inputs it refuses; on every other input it calls the
    distance-transform backend once, on a mask of the shape of [mask], and
    when the backend returns a distance map and a root map the result is
    that distance map, of the shape of [mask], the root map being dropped
    (an exception of the backend is passed on). *)
Theorem distance_transform_edt_returns_distance (c : core) mask scales st :
  core_edt_same_shape c →
  scales_well_formed (heap st) scales →
  let r := distance_transform_edt c mask scales st in
  (distance_transform_edt_invalid mask scales ∧ rejected st r)
  ∨ (¬ distance_transform_edt_invalid mask scales
     ∧ ∃ a m s st1,
         mask = PyNdarray a ∧ calls st1 = calls st ∧ shape m = shape a
         ∧ r = edt_via_core c m s st1
         ∧ match c (euclidean_distance_transform_grid m s) (heap st1) with
           | (inr (distance, roots), h) =>
               r = (inr distance,
                    State h (calls st
                             ++ [euclidean_distance_transform_grid m s]))
               ∧ shape distance = shape a
           | (inl e, h) =>
               r = (inl e,
                    State h (calls st
                             ++ [euclidean_distance_transform_grid m s]))
           end).
Proof.
  intros Hshape Hwf r. subst r.
  destruct mask as [|a|g|n]; try (left; split; [exact I | by eexists]).
  rewrite distance_transform_edt_run.
  pose proof (silent_edt_scales scales st) as Hc.
  destruct (edt_scales scales st) as [[e|s] st1] eqn:He; simpl in Hc.
  { destruct (edt_scales_inl _ _ _ _ Hwf He) as [Hinv _].
    left. split; [by left | by eexists]. }
  apply edt_scales_inr_valid in He.
  destruct (decide (ndim a < 2 ∨ 3 < ndim a)) as [Hd|Hd].
  { rewrite (bool_decide_eq_true_2 _ Hd). left. split; [by right | by eexists]. }
  rewrite (bool_decide_eq_false_2 _ Hd). right. split; [simpl; tauto|].
  cbv zeta. set (l := fresh (dom (heap st1))).
  set (st2 := State (<[l := buffer_astype_bool (heap st1 !!! buf a)]> (heap st1))
                    (calls st1)).
  exists a, (NdArray l (shape a)), s, st2.
  split_and!; [done | exact Hc | done | reflexivity |].
  unfold edt_via_core, invoke.
  destruct (c (euclidean_distance_transform_grid (NdArray l (shape a)) s)
              (heap st2)) as [[e|[d roots]] h] eqn:Hcore.
  - simpl. by rewrite Hc.
  - simpl. rewrite Hc. split; [done|].
    apply Hshape in Hcore. exact Hcore.
Qed.

Lemma distance_transform_edt_returns_distance_witness :
  let r := distance_transform_edt zero_core (PyNdarray mask22) None st0 in
  (distance_transform_edt_invalid (PyNdarray mask22) None ∧ rejected st0 r)
  ∨ (¬ distance_transform_edt_invalid (PyNdarray mask22) None
     ∧ ∃ a m s st1,
         PyNdarray mask22 = PyNdarray a ∧ calls st1 = calls st0
         ∧ shape m = shape a
         ∧ r = edt_via_core zero_core m s st1
         ∧ match zero_core (euclidean_distance_transform_grid m s) (heap st1)
           with
           | (inr (distance, roots), h) =>
               r = (inr distance,
                    State h (calls st0
                             ++ [euclidean_distance_transform_grid m s]))
               ∧ shape distance = shape a
           | (inl e, h) =>
               r = (inl e,
                    State h (calls st0
                             ++ [euclidean_distance_transform_grid m s]))
           end).
Proof.
  apply (distance_transform_edt_returns_distance zero_core (PyNdarray mask22)
           None st0 zero_core_edt_same_shape).
  exact I.
Defined.

(** X6.  Given a [scales] whose buffer matches its shape,
    [distance_transform_edt] fails before the core runs exactly when [mask]
    is not an ndarray, [scales] is given and is not one-dimensional of
    length 2 or 3, or [mask] is not 2-D or 3-D; it then raises a TypeError or
    a ValueError, never an indexing error.  On every other input it calls
    the distance-transform backend once. *)
Theorem distance_transform_edt_validation (c : core) mask scales st :
  scales_well_formed (heap st) scales →
  let r := distance_transform_edt c mask scales st in
  (distance_transform_edt_invalid mask scales
   ∧ rejected_with is_validation_error st r)
  ∨ (¬ distance_transform_edt_invalid mask scales
     ∧ ∃ a m s st1,
         mask = PyNdarray a ∧ calls st1 = calls st
         ∧ r = edt_via_core c m s st1).
Proof.
  intros Hwf r. subst r. destruct mask as [|a|g|n];
    try (left; split; [exact I|]; eexists;
         split_and!; [reflexivity | reflexivity | exact I]).
  rewrite distance_transform_edt_run.
  pose proof (silent_edt_scales scales st) as Hc.
  destruct (edt_scales scales st) as [[e|s] st1] eqn:He; simpl in Hc.
  - destruct (edt_scales_inl _ _ _ _ Hwf He) as [Hinv [msg ->]].
    left. split; [by left|]. eexists.
    split_and!; [reflexivity | assumption | exact I].
  - apply edt_scales_inr_valid in He.
    destruct (decide (ndim a < 2 ∨ 3 < ndim a)) as [Hd|Hd].
    + rewrite (bool_decide_eq_true_2 _ Hd). left. split; [by right|].
      eexists. split_and!; [reflexivity | assumption | exact I].
    + rewrite (bool_decide_eq_false_2 _ Hd). right.
      split; [simpl; tauto|]. cbv zeta.
      eexists a, _, s, (State _ (calls st1)).
      split_and!; [done | exact Hc | reflexivity].
Qed.

Lemma distance_transform_edt_validation_witness :
  let r := distance_transform_edt zero_core (PyNdarray mask22)
             (Some (AlNdarray scales2)) st0 in
  (distance_transform_edt_invalid (PyNdarray mask22) (Some (AlNdarray scales2))
   ∧ rejected_with is_validation_error st0 r)
  ∨ (¬ distance_transform_edt_invalid (PyNdarray mask22)
         (Some (AlNdarray scales2))
     ∧ ∃ a m s st1,
         PyNdarray mask22 = PyNdarray a ∧ calls st1 = calls st0
         ∧ r = edt_via_core zero_core m s st1).
Proof.
  apply (distance_transform_edt_validation zero_core (PyNdarray mask22)
           (Some (AlNdarray scales2)) st0).
  vm_compute. reflexivity.
Defined.

(** X7.  When [distance_transform_edt] calls the core on a live mask, the
    mask it hands over is a fresh boolean copy (its buffer did not exist
    before the call) with the mask's shape, 2-D or 3-D, holding the truth
    value of each element; the scales have length 3, and are the caller's
    own array when the caller passed a length-3 ndarray, a fresh array
    otherwise. *)
Theorem distance_transform_edt_core_arguments (c : core) a b scales st :
  heap st !! buf a = Some b →
  let r := distance_transform_edt c (PyNdarray a) scales st in
  rejected st r
  ∨ ∃ m s st1,
      r = edt_via_core c m s st1 ∧ calls st1 = calls st
      ∧ (buf m ∉ dom (heap st))
      ∧ holds (heap st1) m
          (shape a, BoolBuf (scalar_to_bool <$> buffer_items b))
      ∧ (ndim m = 2 ∨ ndim m = 3)
      ∧ shape s = [3]
      ∧ match scales with
        | Some (AlNdarray s0) =>
            if decide (shape s0 = [3]) then s = s0
            else buf s ∉ dom (heap st)
        | _ => buf s ∉ dom (heap st)
        end.
Proof.
  intros Hb r. subst r. rewrite distance_transform_edt_run.
  pose proof (silent_edt_scales scales st) as Hc.
  pose proof (preserves_edt_scales scales st) as Hh.
  destruct (edt_scales scales st) as [[e|s] st1] eqn:He; simpl in Hc, Hh.
  { left. by eexists. }
  destruct (decide (ndim a < 2 ∨ 3 < ndim a)) as [Hd|Hd].
  { rewrite (bool_decide_eq_true_2 _ Hd). left. by eexists. }
  rewrite (bool_decide_eq_false_2 _ Hd). cbv zeta.
  destruct (edt_scales_inr _ _ _ _ He) as [Hs Hal].
  right. eexists _, s, _. split_and!; [reflexivity|done| | | |done|].
  - cbn [buf]. intros Hin. apply (is_fresh (dom (heap st1))).
    by apply (subseteq_dom _ _ Hh).
  - split; [done|]. cbn [buf heap fst snd].
    rewrite (lookup_total_correct (heap st1) _ b) by (by eapply lookup_weaken).
    apply lookup_insert_eq.
  - unfold ndim in *. cbn [shape]. lia.
  - destruct scales as [[s0|t|x]|]; try done.
    destruct (decide (shape s0 = [3])); [tauto|done].
Qed.

Lemma distance_transform_edt_core_arguments_witness :
  let r := distance_transform_edt zero_core (PyNdarray mask22) None st0 in
  rejected st0 r
  ∨ ∃ m s st1,
      r = edt_via_core zero_core m s st1 ∧ calls st1 = calls st0
      ∧ (buf m ∉ dom (heap st0))
      ∧ holds (heap st1) m ([2; 2], BoolBuf [false; true; false; true])
      ∧ (ndim m = 2 ∨ ndim m = 3)
      ∧ shape s = [3]
      ∧ (buf s ∉ dom (heap st0)).
Proof.
  apply (distance_transform_edt_core_arguments zero_core mask22
           (IntBuf [0; 2; 0; 1]%Z) None st0).
  vm_compute. reflexivity.
Defined.

(** ** [watershed_from_minima]: what is refused and what the core is handed *)

Lemma watershed_from_minima_outcome (c : core) image mask p st :
  let r := watershed_from_minima c image mask p st in
  (watershed_from_minima_invalid image mask
   ∧ rejected_with is_validation_error st r)
  ∨ (¬ watershed_from_minima_invalid image mask
     ∧ ∃ img a st1,
         image = PyNdarray img ∧ calls st1 = calls st ∧ heap st ⊆ heap st1
         ∧ shape a = shape img ∧ (ndim img = 2 ∨ ndim img = 3)
         ∧ ((mask = PyNone ∧ holds (heap st1) a (all_true (shape img)))
            ∨ (mask = PyNdarray a ∧ st1 = st))
         ∧ r = invoke c (watershed_from_minima_grid img
                           (NdArray (fresh (dom (heap st1))) (shape a))
                           (kwarg 1%float p))
                 (State (<[fresh (dom (heap st1))
                           := buffer_astype_bool (heap st1 !!! buf a)]>
                           (heap st1))
                        (calls st1))).
Proof.
  cbv zeta.
  destruct image as [|img|g|n];
    try (left; split; [by destruct mask|]; eexists;
         split_and!; [reflexivity | reflexivity | exact I]).
  destruct mask as [|a|g|n];
    try (left; split; [exact I|]; eexists;
         split_and!; [reflexivity | reflexivity | exact I]).
  - rewrite watershed_from_minima_None. cbv zeta.
    rewrite watershed_checked_run. cbn [shape].
    rewrite bool_decide_eq_false_2 by tauto.
    destruct (decide (ndim img < 2 ∨ 3 < ndim img)) as [Hd|Hd].
    + rewrite (bool_decide_eq_true_2 _ Hd). left. split; [done|].
      eexists. split_and!; [reflexivity | reflexivity | exact I].
    + rewrite (bool_decide_eq_false_2 _ Hd). right. split; [done|].
      eexists img, (NdArray (fresh (dom (heap st))) (shape img)), _.
      split_and!; [done | | | done | lia | | reflexivity].
      * reflexivity.
      * apply alloc_subseteq.
      * left. split; [done|]. split; [done|]. apply lookup_insert_eq.
  - rewrite watershed_from_minima_ndarray, watershed_checked_run.
    destruct (decide (shape img = shape a)) as [Hs|Hs]; cycle 1.
    { rewrite (bool_decide_eq_true_2 _ Hs). left. split; [by left|].
      eexists. split_and!; [reflexivity | reflexivity | exact I]. }
    rewrite bool_decide_eq_false_2 by tauto.
    destruct (decide (ndim img < 2 ∨ 3 < ndim img)) as [Hd|Hd].
    + rewrite (bool_decide_eq_true_2 _ Hd). left. split; [by right|].
      eexists. split_and!; [reflexivity | reflexivity | exact I].
    + rewrite (bool_decide_eq_false_2 _ Hd). right. split; [simpl; tauto|].
      eexists img, a, st.
      split_and!; [done | done | done | done | lia | by right | reflexivity].
Qed.

(** X8.  [watershed_from_minima] fails before the core runs exactly when
    [image] is not an ndarray, [mask] is neither omitted nor an ndarray, the
    two shapes differ, or the image is not 2-D or 3-D, and then with a
    TypeError or a ValueError.  On every other input, any 2-D or 3-D image
    without mask among them, it calls the watershed backend once, on the
    caller's image array itself. *)
Theorem watershed_from_minima_validation (c : core) image mask p st :
  let r := watershed_from_minima c image mask p st in
  (watershed_from_minima_invalid image mask
   ∧ rejected_with is_validation_error st r)
  ∨ (¬ watershed_from_minima_invalid image mask
     ∧ ∃ img m st1,
         image = PyNdarray img ∧ calls st1 = calls st
         ∧ r = invoke c (watershed_from_minima_grid img m (kwarg 1%float p))
                 st1).
Proof.
  cbv zeta. destruct (watershed_from_minima_outcome c image mask p st)
    as [?|[Hv (img & a & st1 & -> & Hc & _ & _ & _ & _ & Hr)]]; [by left|].
  right. split; [done|]. eexists img, _, (State _ (calls st1)).
  split_and!; [done | exact Hc | exact Hr].
Qed.

(** X9.  When [watershed_from_minima] calls the core, the mask it hands
    over is a fresh boolean array (its buffer did not exist before the call)
    with the shape of the image, 2-D or 3-D: all true when the mask was
    omitted, otherwise the truth value of each element of the caller's
    mask. *)
Theorem watershed_from_minima_core_arguments (c : core) image mask p st :
  let r := watershed_from_minima c image mask p st in
  rejected st r
  ∨ ∃ img m st1,
      image = PyNdarray img ∧ calls st1 = calls st
      ∧ r = invoke c (watershed_from_minima_grid img m (kwarg 1%float p)) st1
      ∧ (ndim img = 2 ∨ ndim img = 3)
      ∧ (buf m ∉ dom (heap st))
      ∧ match mask with
        | PyNdarray a =>
            ∀ b, heap st !! buf a = Some b →
                 holds (heap st1) m
                   (shape img, BoolBuf (scalar_to_bool <$> buffer_items b))
        | _ => holds (heap st1) m (all_true (shape img))
        end.
Proof.
  cbv zeta. destruct (watershed_from_minima_outcome c image mask p st)
    as [[_ (e & ? & ? & _)]
       |[_ (img & a & st1 & -> & Hc & Hh & Hs & Hd & Hm & Hr)]].
  { left. by exists e. }
  right. eexists img, _, (State _ (calls st1)).
  split_and!; [done | exact Hc | exact Hr | done | |].
  - cbn [buf]. intros Hin. apply (is_fresh (dom (heap st1))).
    by apply (subseteq_dom _ _ Hh).
  - destruct Hm as [[-> [_ Hb]]|[-> ->]].
    + split; [done|]. cbn [buf heap fst snd all_true] in *.
      rewrite (lookup_total_correct _ _ _ Hb), buffer_astype_bool_BoolBuf.
      apply lookup_insert_eq.
    + intros b Hb. split; [done|]. cbn [buf heap fst snd].
      rewrite (lookup_total_correct _ _ _ Hb). apply lookup_insert_eq.
Qed.

(** ** The outcome of the core call is the outcome of the entry point *)

Lemma invoke_through_core (c : core) st call st1 :
  calls st1 = calls st → through_core c st (invoke c call st1).
Proof.
  intros Hc. exists call, st1. unfold invoke.
  destruct (c call (heap st1)) as [[e|v] h]; simpl; rewrite Hc;
    split_and!; try done. by exists v.
Qed.

Lemma edt_via_core_through_core (c : core) st m s st1 :
  calls st1 = calls st → through_core c st (edt_via_core c m s st1).
Proof.
  intros Hc. exists (euclidean_distance_transform_grid m s), st1.
  unfold edt_via_core, invoke.
  destruct (c _ (heap st1)) as [[e|[d roots]] h]; simpl; rewrite Hc;
    split_and!; try done. by exists d.
Qed.

(** X10.  Each entry point either fails before the core runs, or calls the
    core exactly once and mirrors that call: it raises the exception the
    core raised, unchanged, returns when the core returned, and leaves the
    store as the core left it.  No entry point catches or wraps a core
    exception, and none calls the core twice. *)
Theorem core_outcome_passed_on (c : core) st :
  (∀ seeds image graph image_3d,
     let r := seed_competition c seeds image graph image_3d st in
     rejected st r ∨ through_core c st r)
  ∧ (∀ seeds image image_3d mode alpha,
       let r := dynamic_arc_weight c seeds image image_3d mode alpha st in
       rejected st r ∨ through_core c st r)
  ∧ (∀ mask scales,
       let r := distance_transform_edt c mask scales st in
       rejected st r ∨ through_core c st r)
  ∧ (∀ image mask penalization,
       let r := watershed_from_minima c image mask penalization st in
       rejected st r ∨ through_core c st r).
Proof.
  split_and!.
  - intros seeds image graph i3 r. subst r.
    destruct (seed_competition_seeds_as_given c seeds image graph i3 st)
      as [?|[[img ->]|[g ->]]]; [by left|right..].
    + by apply (invoke_through_core c st (seed_competition_grid img seeds)).
    + by apply (invoke_through_core c st
                  (seed_competition_graph (data g) (indices g) (indptr g)
                                          seeds)).
  - intros seeds image i3 mode alpha r. subst r.
    destruct (dynamic_arc_weight_seeds_as_given c seeds image i3 mode alpha st)
      as [?|[img [->|[->| ->]]]]; [by left|right..].
    + by apply (invoke_through_core c st
                  (dynamic_arc_weight_grid_exp_decay img seeds
                     (kwarg 0.5%float alpha))).
    + by apply (invoke_through_core c st
                  (dynamic_arc_weight_grid_label img seeds)).
    + by apply (invoke_through_core c st
                  (dynamic_arc_weight_grid_root img seeds)).
  - intros mask scales r. subst r.
    destruct (distance_transform_edt_outcome c mask scales st)
      as [?|(a & s & st1 & m & st2 & _ & _ & _ & -> & Hc & _)]; [by left|].
    right. by apply edt_via_core_through_core.
  - intros image mask p r. subst r.
    destruct (watershed_from_minima_outcome c image mask p st)
      as [[_ (e & ? & ? & _)]
         |[_ (img & a & st1 & _ & Hc & _ & _ & _ & _ & ->)]].
    + left. by exists e.
    + right.
      by apply (invoke_through_core c st
                  (watershed_from_minima_grid img _ (kwarg 1%float p))).
Qed.

(** ** The bounds on [alpha] *)

(** X11.  The range check on [alpha] is inclusive at both ends and does not
    catch NaN: with mode 'exp' and an image and seeds that pass the checks
    of [seed_competition], an [alpha] of 0, of 1 or NaN reaches the
    exponential-decay backend as it is. *)
Theorem dynamic_arc_weight_alpha_bounds (c : core) seeds a image_3d alpha st :
  ¬ seed_competition_invalid seeds (PyNdarray a) PyNone (kwarg false image_3d) →
  alpha = 0%float ∨ alpha = 1%float ∨ alpha = nan →
  dynamic_arc_weight c seeds (PyNdarray a) image_3d (Some "exp") (Some alpha) st
  = invoke c (dynamic_arc_weight_grid_exp_decay
                (normalized_image a (kwarg false image_3d)) seeds alpha) st.
Proof.
  intros Hv Ha. rewrite dynamic_arc_weight_run. cbv zeta. simpl in Hv.
  assert (alpha_out_of_range (kwarg 0.5%float (Some alpha)) = false) as ->.
  { by destruct Ha as [->|[->| ->]]. }
  rewrite (bool_decide_eq_false_2 (_ ∉ _))
    by (intros H; apply H; apply list_elem_of_here).
  rewrite bool_decide_eq_false_2 by tauto.
  destruct (bool_decide (ndim a = 2) && kwarg false image_3d) eqn:H2.
  { exfalso. apply andb_true_iff in H2 as [H2 H3].
    apply bool_decide_eq_true_1 in H2. tauto. }
  by rewrite bool_decide_eq_false_2 by tauto.
Qed.

Lemma dynamic_arc_weight_alpha_bounds_witness :
  dynamic_arc_weight zero_core seeds22 (PyNdarray image222) None (Some "exp")
    (Some nan) st0
  = invoke zero_core (dynamic_arc_weight_grid_exp_decay image222 seeds22 nan)
      st0.
Proof.
  apply (dynamic_arc_weight_alpha_bounds zero_core seeds22 image222 None nan
           st0); [|by auto].
  vm_compute. intros [H|[H|[[H _]|H]]]; first [lia | done].
Defined.

(** ** [scales] as a Python sequence *)

Lemma edt_scales_ndarray_outcome s st sh b :
  holds (heap st) s (sh, b) →
  match scales_outcome sh b with
  | inl e => edt_scales (Some (AlNdarray s)) st = (inl e, st)
  | inr v =>
      ∃ s1 st1, edt_scales (Some (AlNdarray s)) st = (inr s1, st1)
        ∧ holds (heap st1) s1 v ∧ calls st1 = calls st
  end.
Proof.
  intros [Hs Hb]. cbn [fst snd] in *. rewrite edt_scales_ndarray_run.
  unfold scales_outcome, ndim. rewrite Hs, (lookup_total_correct _ _ _ Hb).
  destruct (bool_decide (length sh ≠ 1)); [done|].
  destruct (decide (sh !! 0 = Some 2)).
  - destruct (buffer_items b !! 0); [|done].
    destruct (buffer_items b !! 1); [|done].
    eexists _, _. split; [reflexivity|]. split; [|done].
    split; [done|]. apply lookup_insert_eq.
  - destruct (bool_decide (sh !! 0 ≠ Some 3)); [done|].
    by eexists s, st.
Qed.

(** X12.  [scales] given as a Python sequence behaves as the array
    [np.asarray] makes of it: the call with the sequence and the call with
    an array holding the same numbers raise the same exception before the
    core runs, or both call the core once with scales of equal value. *)
Theorem distance_transform_edt_scales_sequence (c : core) a t s0 st :
  holds (heap st) s0 ([length t], pack t) →
  let r_seq := distance_transform_edt c (PyNdarray a) (Some (AlSeq t)) st in
  let r_arr := distance_transform_edt c (PyNdarray a) (Some (AlNdarray s0)) st in
  (∃ e, r_seq.1 = inl e ∧ r_arr.1 = inl e
        ∧ calls r_seq.2 = calls st ∧ calls r_arr.2 = calls st)
  ∨ ∃ v m s st1 m' s' st1',
      r_seq = edt_via_core c m s st1 ∧ r_arr = edt_via_core c m' s' st1'
      ∧ calls st1 = calls st ∧ calls st1' = calls st
      ∧ holds (heap st1) s v ∧ holds (heap st1') s' v.
Proof.
  intros H0 r_seq r_arr. subst r_seq r_arr.
  rewrite !distance_transform_edt_run, edt_scales_seq.
  set (l := fresh (dom (heap st))).
  set (st' := State (<[l := pack t]> (heap st)) (calls st)).
  assert (holds (heap st') (NdArray l [length t]) ([length t], pack t)) as Hl.
  { split; [done|]. apply lookup_insert_eq. }
  pose proof (edt_scales_ndarray_outcome _ _ _ _ Hl) as Hseq.
  pose proof (edt_scales_ndarray_outcome _ _ _ _ H0) as Harr.
  destruct (scales_outcome [length t] (pack t)) as [e|v].
  { rewrite Hseq, Harr. left. by exists e. }
  destruct Hseq as (s & st1 & -> & Hv & Hc).
  destruct Harr as (s' & st1' & -> & Hv' & Hc').
  destruct (bool_decide (ndim a < 2 ∨ 3 < ndim a)).
  { left. by eexists. }
  right. cbv zeta.
  eexists v, _, s, (State _ (calls st1)), _, s', (State _ (calls st1')).
  split_and!; [reflexivity | reflexivity | exact Hc | exact Hc' | |].
  - eapply holds_weaken; [exact Hv | apply alloc_subseteq].
  - eapply holds_weaken; [exact Hv' | apply alloc_subseteq].
Qed.

Lemma distance_transform_edt_scales_sequence_witness :
  let r_seq := distance_transform_edt zero_core (PyNdarray mask22)
                 (Some (AlSeq [SFloat 2; SFloat 3])) st0 in
  let r_arr := distance_transform_edt zero_core (PyNdarray mask22)
                 (Some (AlNdarray scales2)) st0 in
  (∃ e, r_seq.1 = inl e ∧ r_arr.1 = inl e
        ∧ calls r_seq.2 = calls st0 ∧ calls r_arr.2 = calls st0)
  ∨ ∃ v m s st1 m' s' st1',
      r_seq = edt_via_core zero_core m s st1
      ∧ r_arr = edt_via_core zero_core m' s' st1'
      ∧ calls st1 = calls st0 ∧ calls st1' = calls st0
      ∧ holds (heap st1) s v ∧ holds (heap st1') s' v.
Proof.
  apply (distance_transform_edt_scales_sequence zero_core mask22
           [SFloat 2; SFloat 3] scales2 st0).
  split; [reflexivity | vm_compute; reflexivity].
Defined.

(** ** Two scales stand for three *)

Lemma pack_prepend_one s0 s1 :
  pack (SInt 1 :: buffer_items (pack [s0; s1])) = pack [SInt 1; s0; s1].
Proof. destruct s0 as [[]| |], s1 as [[]| |]; reflexivity. Qed.

(** X13.  A pair of scales [(s0, s1)] is shorthand for the triple
    [(1, s0, s1)]: the two calls are rejected together before the core runs,
    or both call the core once with scales holding [np.array((1, s0, s1))]. *)
Theorem distance_transform_edt_pair_as_triple (c : core) a s0 s1 st :
  let r2 := distance_transform_edt c (PyNdarray a) (Some (AlSeq [s0; s1])) st in
  let r3 := distance_transform_edt c (PyNdarray a)
              (Some (AlSeq [SInt 1; s0; s1])) st in
  (∃ e, r2.1 = inl e ∧ r3.1 = inl e
        ∧ calls r2.2 = calls st ∧ calls r3.2 = calls st)
  ∨ ∃ m s st1 m' s' st1',
      r2 = edt_via_core c m s st1 ∧ r3 = edt_via_core c m' s' st1'
      ∧ calls st1 = calls st ∧ calls st1' = calls st
      ∧ holds (heap st1) s (np_array_value [SInt 1; s0; s1])
      ∧ holds (heap st1') s' (np_array_value [SInt 1; s0; s1]).
Proof.
  cbv zeta. rewrite !distance_transform_edt_run, !edt_scales_seq.
  set (l := fresh (dom (heap st))).
  assert (∀ t, holds (heap (State (<[l := pack t]> (heap st)) (calls st)))
                 (NdArray l [length t]) ([length t], pack t)) as Hl.
  { intros t. split; [done|]. apply lookup_insert_eq. }
  pose proof (edt_scales_ndarray_outcome _ _ _ _ (Hl [s0; s1])) as H2.
  pose proof (edt_scales_ndarray_outcome _ _ _ _ (Hl [SInt 1; s0; s1])) as H3.
  assert (scales_outcome [2] (pack [s0; s1])
          = inr (np_array_value [SInt 1; s0; s1])) as E2.
  { pose proof (length_pack [s0; s1]) as Hlen.
    pose proof (pack_prepend_one s0 s1) as Hp.
    unfold scales_outcome.
    rewrite bool_decide_eq_false_2 by (simpl; tauto).
    rewrite decide_True by done.
    destruct (buffer_items (pack [s0; s1])) as [|x0 [|x1 [|??]]];
      simpl in Hlen; try lia.
    change ([x0; x1] !! 0) with (Some x0).
    change ([x0; x1] !! 1) with (Some x1).
    unfold np_array_value. by rewrite <- Hp. }
  assert (scales_outcome [3] (pack [SInt 1; s0; s1])
          = inr (np_array_value [SInt 1; s0; s1])) as E3 by reflexivity.
  cbn [length] in H2, H3 |- *. rewrite E2 in H2. rewrite E3 in H3.
  destruct H2 as (s & st1 & -> & Hv & Hc).
  destruct H3 as (s' & st1' & -> & Hv' & Hc').
  destruct (bool_decide (ndim a < 2 ∨ 3 < ndim a)).
  { left. by eexists. }
  right. cbv zeta.
  eexists _, s, (State _ (calls st1)), _, s', (State _ (calls st1')).
  split_and!; [reflexivity | reflexivity | exact Hc | exact Hc' | |].
  - eapply holds_weaken; [exact Hv | apply alloc_subseteq].
  - eapply holds_weaken; [exact Hv' | apply alloc_subseteq].
Qed.

(** ** The messages, as [%] builds them *)

(** The messages written out in the embedding are the ones [%] gives for
    the format strings and arguments of the source. *)
Lemma py_format_ndim n :
  py_format "`image` must be a 2, 3 or 4-dimensional array, %d found."
    [ArgInt n]
  = inr ("`image` must be a 2, 3 or 4-dimensional array, "
         +:+ pretty n +:+ " found.").
Proof. reflexivity. Qed.

Lemma py_format_grid t1 t2 :
  py_format "`image` grid and `seeds` must have the same dimensions, %r and %r found."
    [ArgTuple t1; ArgTuple t2]
  = inr ("`image` grid and `seeds` must have the same dimensions, "
         +:+ repr_tuple t1 +:+ " and " +:+ repr_tuple t2 +:+ " found.").
Proof. reflexivity. Qed.

Lemma py_format_seeds_length n m :
  py_format "`graph` and `seeds` dimensions does not match, %d and %d found."
    [ArgInt n; ArgInt m]
  = inr ("`graph` and `seeds` dimensions does not match, "
         +:+ pretty n +:+ " and " +:+ pretty m +:+ " found.").
Proof. reflexivity. Qed.

Lemma py_format_seeds_ndim n :
  py_format "`seeds` must be a 1-dimensional array, %d found." [ArgInt n]
  = inr ("`seeds` must be a 1-dimensional array, " +:+ pretty n +:+ " found.").
Proof. reflexivity. Qed.

Lemma py_format_scales n :
  py_format "`scales` must be a 2 or 3-dimensional array, %d found." [ArgInt n]
  = inr ("`scales` must be a 2 or 3-dimensional array, "
         +:+ pretty n +:+ " found.").
Proof. reflexivity. Qed.

Lemma py_format_mask_ndim n :
  py_format "`image` must be a 2 or 3-dimensional array, %d found." [ArgInt n]
  = inr ("`image` must be a 2 or 3-dimensional array, "
         +:+ pretty n +:+ " found.").
Proof. reflexivity. Qed.

Lemma py_format_mask_shape t1 t2 :
  py_format "`image` and `mask` must have the same dimensions, %r and %r found."
    [ArgTuple t1; ArgTuple t2]
  = inr ("`image` and `mask` must have the same dimensions, "
         +:+ repr_tuple t1 +:+ " and " +:+ repr_tuple t2 +:+ " found.").
Proof. reflexivity. Qed.

(** X14.  For a CSR graph that is not square, [seed_competition] does not
    raise the ValueError it starts to build: the format string of line 109
    has one [%r] and is applied to the 2-tuple [graph.shape], so [%] itself
    raises a TypeError, for every shape, and that TypeError is what the
    caller gets, before the core runs. *)
Theorem seed_competition_non_square_graph (c : core) seeds g image_3d st :
  (csr_shape g).1 ≠ (csr_shape g).2 →
  ∃ msg,
    py_format "`graph` must be a square adjacency matrix, current shape %r."
      [ArgInt (csr_shape g).1; ArgInt (csr_shape g).2]
    = inl (TypeError msg)
    ∧ seed_competition c seeds PyNone (PyCsrMatrix g) image_3d st
      = (inl (TypeError msg), st).
Proof.
  intros Hsq. eexists. split; [reflexivity|].
  rewrite seed_competition_graph_run.
  by rewrite (bool_decide_eq_true_2 _ Hsq).
Qed.

Lemma seed_competition_non_square_graph_witness :
  ∃ msg,
    py_format "`graph` must be a square adjacency matrix, current shape %r."
      [ArgInt 2; ArgInt 3]
    = inl (TypeError msg)
    ∧ seed_competition zero_core seeds2 PyNone
        (PyCsrMatrix (CsrMatrix (2, 3) (data graph22) (indices graph22)
                                (indptr graph22))) None st_graph
      = (inl (TypeError msg), st_graph).
Proof.
  apply (seed_competition_non_square_graph zero_core seeds2
           (CsrMatrix (2, 3) (data graph22) (indices graph22) (indptr graph22))
           None st_graph).
  simpl. lia.
Defined.
